(** * Researchify backend: the resource API layer of [main.py]

    A shallow embedding of the ten request handlers of [main.py] and of the
    two external services they call (the identity provider and the document
    store), followed by the properties of the handlers.

    The handlers are written in a state-and-exception monad over a [world]
    that holds the accounts of the identity provider, the collections of the
    document store, and the replies the two services are going to give to the
    next calls.  The [print] statements of the source have no effect on the
    results and are left out. *)

From Stdlib Require Import ZArith.
From stdpp Require Import gmap strings list fin_maps pretty.

Local Open Scope string_scope.
Local Open Scope Z_scope.

(** ** Documents *)

(** The field values the layer writes: text, and sequences of text. *)
Inductive value :=
| VStr (s : string)
| VList (l : list string).

#[global] Instance value_eq_dec : EqDecision value.
Proof. solve_decision. Defined.

(** A document (and a JSON object of a response) is a Python [dict]. *)
Abbreviation doc := (gmap string value).

(** ** Exceptions *)

(** [HTTPException] is what a handler raises on purpose; [UpstreamError] is
    any exception raised inside the identity provider or the store client. *)
Inductive exn :=
| HTTPException (status_code : Z) (detail : string)
| UpstreamError (msg : string).

#[global] Instance exn_eq_dec : EqDecision exn.
Proof. solve_decision. Defined.

(** [str(e)]. *)
Definition str (e : exn) : string :=
  match e with
  | HTTPException status_code detail => pretty status_code +:+ ": " +:+ detail
  | UpstreamError msg => msg
  end.

(** ** The world: identity provider, document store, and their replies *)

Record UserRecord := {
  uid : string;
  account_email : string;
  account_password : string
}.

(** What a service answers to one call.  [Served token]: the call goes
    through, and [token] is the identifier issued when the call creates an
    account or a document (other calls ignore it).  [Refused msg]: the call
    raises. *)
Inductive reply :=
| Served (token : string)
| Refused (msg : string).

Record world := {
  accounts : list UserRecord;
  db : gmap string (gmap string doc);
  script : list reply
}.

Definition with_script (rs : list reply) (w : world) : world :=
  {| accounts := accounts w; db := db w; script := rs |}.

Definition with_db (d : gmap string (gmap string doc)) (w : world) : world :=
  {| accounts := accounts w; db := d; script := script w |}.

Definition with_accounts (a : list UserRecord) (w : world) : world :=
  {| accounts := a; db := db w; script := script w |}.

(** [db.collection(name)] read as a mapping from identifier to document. *)
Definition collection_docs (w : world) (name : string) : gmap string doc :=
  default ∅ (db w !! name).

(** ** The monad of the handlers *)

Inductive result (A : Type) :=
| Ok (a : A)
| Raise (e : exn).
Arguments Ok {A} a.
Arguments Raise {A} e.

Definition M (A : Type) : Type := world → result A * world.

#[global] Instance M_ret : MRet M := λ A a w, (Ok a, w).

#[global] Instance M_bind : MBind M := λ A B f m w,
  match m w with
  | (Ok a, w') => f a w'
  | (Raise e, w') => (Raise e, w')
  end.

Definition raise {A} (e : exn) : M A := λ w, (Raise e, w).

(** [try: body except Exception as e: handler(e)]. *)
Definition try_except {A} (body : M A) (handler : exn → M A) : M A := λ w,
  match body w with
  | (Ok a, w') => (Ok a, w')
  | (Raise e, w') => handler e w'
  end.

Definition get_world : M world := λ w, (Ok w, w).

Definition put_collection (name : string) (c : gmap string doc) : M unit :=
  λ w, (Ok tt, with_db (<[name := c]> (db w)) w).

Definition record_account (r : UserRecord) : M unit :=
  λ w, (Ok tt, with_accounts (accounts w ++ [r]) w).

(** One round trip to a service: the next reply of the script is consumed.
    A script that has run out is a service that does not answer. *)
Definition call : M string := λ w,
  match script w with
  | [] => (Raise (UpstreamError "service unavailable"), w)
  | Served token :: rs => (Ok token, with_script rs w)
  | Refused msg :: rs => (Raise (UpstreamError msg), with_script rs w)
  end.

(** ** The identity provider *)

Module auth.

(** [auth.create_user(email=..., password=...)]: the provider accepts or
    refuses; when it accepts it records the account under the identifier it
    issues. *)
Definition create_user (email password : string) : M UserRecord :=
  token ← call;
  let user_record :=
    {| uid := token; account_email := email; account_password := password |} in
  record_account user_record;;
  mret user_record.

End auth.

(** ** The document store *)

Module firestore.

(** [db.collection(c).document(k).get()]: [None] is a snapshot whose
    [exists] is false, [Some d] one whose [to_dict()] is [d]. *)
Definition get (c k : string) : M (option doc) :=
  call;;
  w ← get_world;
  mret (collection_docs w c !! k).

(** [db.collection(c).document(k).set(data)]: create or overwrite. *)
Definition set (c k : string) (data : doc) : M unit :=
  call;;
  w ← get_world;
  put_collection c (<[k := data]> (collection_docs w c)).

(** [db.collection(c).add(data)[1].id]: a new document under a new
    identifier; the store refuses an identifier that is taken. *)
Definition add (c : string) (data : doc) : M string :=
  token ← call;
  w ← get_world;
  match collection_docs w c !! token with
  | Some _ => raise (UpstreamError "document already exists")
  | None =>
      put_collection c (<[token := data]> (collection_docs w c));;
      mret token
  end.

(** [db.collection(c).document(k).update(data)]: the fields of [data]
    replace the fields of the same name, the others stay; the store refuses
    to update a document that does not exist. *)
Definition update (c k : string) (data : doc) : M unit :=
  call;;
  w ← get_world;
  match collection_docs w c !! k with
  | None => raise (UpstreamError "no document to update")
  | Some old => put_collection c (<[k := data ∪ old]> (collection_docs w c))
  end.

(** [db.collection(c).document(k).delete()]. *)
Definition delete (c k : string) : M unit :=
  call;;
  w ← get_world;
  put_collection c (base.delete k (collection_docs w c)).

(** A query: a collection, possibly narrowed by [where(field, "==", v)]. *)
Record query := {
  q_collection : string;
  q_where : option (string * value)
}.

Definition collection (c : string) : query :=
  {| q_collection := c; q_where := None |}.

Definition where_eq (q : query) (field : string) (v : value) : query :=
  {| q_collection := q_collection q; q_where := Some (field, v) |}.

Definition matches (q : query) (d : doc) : bool :=
  match q_where q with
  | None => true
  | Some (field, v) => bool_decide (d !! field = Some v)
  end.

(** [query.stream()], read to the end: the pairs of [doc.id] and
    [doc.to_dict()], in the order of the store. *)
Definition stream (q : query) : M (list (string * doc)) :=
  call;;
  w ← get_world;
  mret (List.filter (λ kd, matches q kd.2)
          (map_to_list (collection_docs w (q_collection q)))).

End firestore.

(** ** The request models *)

Module UserSignup.
Record t := {
  email : string;
  password : string;
  name : string;
  role : string;
  research_interests : list string
}.
End UserSignup.

Module ResearchListing.
Record t := {
  title : string;
  description : string;
  professor_id : string;
  eligibility : list string;
  tags : list string
}.

(** [listing.dict()]. *)
Definition dict (listing : t) : doc :=
  {[ "title" := VStr (title listing);
     "description" := VStr (description listing);
     "professor_id" := VStr (professor_id listing);
     "eligibility" := VList (eligibility listing);
     "tags" := VList (tags listing) ]}.
End ResearchListing.

(** A field of a model whose fields are all [Optional[...] = None]: left out
    of the request body, sent as [null], or sent with a value. *)
Inductive supplied (A : Type) :=
| Unset
| Null
| Given (a : A).
Arguments Unset {A}.
Arguments Null {A}.
Arguments Given {A} a.

Module ResearchListingUpdate.
Record t := {
  title : supplied string;
  description : supplied string;
  professor_id : supplied string;
  eligibility : supplied (list string);
  tags : supplied (list string)
}.

(** One item of [dict(exclude_unset=True)]: nothing for an unset field,
    the pair of the name and [None] or the value otherwise. *)
Definition item {A} (k : string) (inj : A → value) (f : supplied A)
  : list (string * option value) :=
  match f with
  | Unset => []
  | Null => [(k, None)]
  | Given a => [(k, Some (inj a))]
  end.

(** [listing.dict(exclude_unset=True).items()]. *)
Definition dict_exclude_unset (listing : t) : list (string * option value) :=
  item "title" VStr (title listing) ++
  item "description" VStr (description listing) ++
  item "professor_id" VStr (professor_id listing) ++
  item "eligibility" VList (eligibility listing) ++
  item "tags" VList (tags listing).
End ResearchListingUpdate.

Module ResearchApplication.
Record t := {
  student_id : string;
  listing_id : string;
  student_name : string;
  student_email : string;
  statement_of_purpose : string
}.

(** [application.dict()]. *)
Definition dict (application : t) : doc :=
  {[ "student_id" := VStr (student_id application);
     "listing_id" := VStr (listing_id application);
     "student_name" := VStr (student_name application);
     "student_email" := VStr (student_email application);
     "statement_of_purpose" := VStr (statement_of_purpose application) ]}.
End ResearchApplication.

(** ** The handlers *)

(** [{"id": doc.id, **doc.to_dict()}]: the fields of the document are
    written after the key ["id"], so a field named ["id"] would win. *)
Definition with_id (id : string) (d : doc) : doc :=
  d ∪ {[ "id" := VStr id ]}.

(** [{k: v for k, v in items if v is not None}]: the items are written in
    order, a later one over an earlier one of the same key. *)
Definition not_none_items (items : list (string * option value)) : doc :=
  foldl (λ (acc : doc) (kv : string * option value),
           match kv.2 with
           | None => acc
           | Some v => <[kv.1 := v]> acc
           end) ∅ items.

(** [not user_id], for the value of an optional header. *)
Definition header_missing (user_id : option string) : bool :=
  match user_id with
  | None => true
  | Some s => bool_decide (s = "")
  end.

(** [except Exception as e: raise HTTPException(status_code=400, detail=str(e))]. *)
Definition as_bad_request {A} (e : exn) : M A :=
  raise (HTTPException 400 (str e)).

Definition signup (user : UserSignup.t) : M doc :=
  try_except
    (user_record ← auth.create_user (UserSignup.email user) (UserSignup.password user);
     let user_data : doc :=
       {[ "name" := VStr (UserSignup.name user);
          "email" := VStr (UserSignup.email user);
          "role" := VStr (UserSignup.role user);
          "research_interests" := VList (UserSignup.research_interests user) ]} in
     firestore.set "users" (uid user_record) user_data;;
     mret ({[ "message" := VStr "User registered successfully";
              "uid" := VStr (uid user_record) ]} : doc))
    as_bad_request.

Definition create_listing (listing : ResearchListing.t) : M doc :=
  try_except
    (let data := ResearchListing.dict listing in
     doc_ref_id ← firestore.add "research_listings" data;
     mret ({[ "message" := VStr "Research listing created";
              "listing_id" := VStr doc_ref_id ]} : doc))
    as_bad_request.

Definition get_all_listings : M (list doc) :=
  try_except
    (listings ← firestore.stream (firestore.collection "research_listings");
     mret ((λ kd : string * doc, with_id kd.1 kd.2) <$> listings))
    as_bad_request.

Definition get_listing (listing_id : string) : M doc :=
  snapshot ← firestore.get "research_listings" listing_id;
  match snapshot with
  | None => raise (HTTPException 404 "Listing not found")
  | Some d => mret (with_id listing_id d)
  end.

Definition update_listing (listing_id : string) (listing : ResearchListingUpdate.t)
  : M doc :=
  snapshot ← firestore.get "research_listings" listing_id;
  match snapshot with
  | None => raise (HTTPException 404 "Listing not found")
  | Some _ =>
      let update_data :=
        not_none_items (ResearchListingUpdate.dict_exclude_unset listing) in
      if decide (update_data = ∅)
      then raise (HTTPException 400 "No valid fields provided for update")
      else
        firestore.update "research_listings" listing_id update_data;;
        mret ({[ "message" := VStr "Listing updated successfully" ]} : doc)
  end.

Definition delete_listing (listing_id : string) (user_id : option string) : M doc :=
  match user_id with
  | Some caller =>
      if header_missing user_id
      then raise (HTTPException 401 "User ID missing in request headers")
      else
        user_doc ← firestore.get "users" caller;
        match user_doc with
        | None => raise (HTTPException 404 "User not found")
        | Some user_data =>
            if decide (user_data !! "role" ≠ Some (VStr "professor"))
            then raise (HTTPException 403 "Only professors can delete listings")
            else
              snapshot ← firestore.get "research_listings" listing_id;
              match snapshot with
              | None => raise (HTTPException 404 "Listing not found")
              | Some _ =>
                  firestore.delete "research_listings" listing_id;;
                  mret ({[ "message" := VStr "Listing deleted successfully" ]} : doc)
              end
        end
  | None => raise (HTTPException 401 "User ID missing in request headers")
  end.

Definition apply_to_listing (application : ResearchApplication.t) : M doc :=
  try_except
    (let data := ResearchApplication.dict application in
     doc_ref_id ← firestore.add "applications" data;
     mret ({[ "message" := VStr "Application submitted successfully";
              "application_id" := VStr doc_ref_id ]} : doc))
    as_bad_request.

Definition get_applications_for_listing (listing_id : string) : M (list doc) :=
  try_except
    (applications ← firestore.stream
       (firestore.where_eq (firestore.collection "applications")
          "listing_id" (VStr listing_id));
     mret ((λ kd : string * doc, with_id kd.1 kd.2) <$> applications))
    as_bad_request.

Definition get_student_applications (student_id : string) : M (list doc) :=
  try_except
    (applications ← firestore.stream
       (firestore.where_eq (firestore.collection "applications")
          "student_id" (VStr student_id));
     mret ((λ kd : string * doc, with_id kd.1 kd.2) <$> applications))
    as_bad_request.

Definition delete_application (application_id : string) : M doc :=
  snapshot ← firestore.get "applications" application_id;
  match snapshot with
  | None => raise (HTTPException 404 "Application not found")
  | Some _ =>
      firestore.delete "applications" application_id;;
      mret ({[ "message" := VStr "Application deleted successfully" ]} : doc)
  end.

(** ** Definitions used in the statements *)

(** Sample documents, payloads and a sample world. *)
Definition professor_doc : doc :=
  {[ "name" := VStr "Ada"; "email" := VStr "ada@uni.edu";
     "role" := VStr "professor"; "research_interests" := VList ["ml"] ]}.

Definition student_doc : doc :=
  {[ "name" := VStr "Sam"; "email" := VStr "sam@uni.edu";
     "role" := VStr "student"; "research_interests" := VList [] ]}.

Definition demo_listing : ResearchListing.t :=
  {| ResearchListing.title := "AI Research";
     ResearchListing.description := "...";
     ResearchListing.professor_id := "p1";
     ResearchListing.eligibility := ["senior"];
     ResearchListing.tags := ["ml"] |}.

Definition demo_application (student listing : string) : ResearchApplication.t :=
  {| ResearchApplication.student_id := student;
     ResearchApplication.listing_id := listing;
     ResearchApplication.student_name := "Sam";
     ResearchApplication.student_email := "sam@uni.edu";
     ResearchApplication.statement_of_purpose := "I like proofs" |}.

(** Two users (a professor who owns no listing, and a student), one listing
    owned by ["p1"], three applications; the services answer [rs]. *)
Definition demo_world (rs : list reply) : world :=
  {| accounts := [];
     db := {[ "users" := {[ "u1" := professor_doc; "s1" := student_doc ]};
              "research_listings" := {[ "L1" := ResearchListing.dict demo_listing ]};
              "applications" :=
                {[ "a1" := ResearchApplication.dict (demo_application "s1" "L1");
                   "a2" := ResearchApplication.dict (demo_application "s2" "L2");
                   "a3" := ResearchApplication.dict (demo_application "s2" "L1") ]} ]};
     script := rs |}.

Definition unauthorized : exn :=
  HTTPException 401 "User ID missing in request headers".

Definition given {A} (inj : A → value) (f : supplied A) : option value :=
  match f with
  | Given a => Some (inj a)
  | Unset | Null => None
  end.

(** What a request supplies for the field named [k] with a value that is
    not null, if anything. *)
Definition non_null_field (listing : ResearchListingUpdate.t) (k : string)
  : option value :=
  if decide (k = "title") then given VStr (ResearchListingUpdate.title listing)
  else if decide (k = "description")
  then given VStr (ResearchListingUpdate.description listing)
  else if decide (k = "professor_id")
  then given VStr (ResearchListingUpdate.professor_id listing)
  else if decide (k = "eligibility")
  then given VList (ResearchListingUpdate.eligibility listing)
  else if decide (k = "tags") then given VList (ResearchListingUpdate.tags listing)
  else None.

Definition write_field (k : string) (o : option value) (acc : doc) : doc :=
  match o with
  | Some v => <[k := v]> acc
  | None => acc
  end.

Definition all_null : ResearchListingUpdate.t :=
  {| ResearchListingUpdate.title := Null;
     ResearchListingUpdate.description := Null;
     ResearchListingUpdate.professor_id := Unset;
     ResearchListingUpdate.eligibility := Null;
     ResearchListingUpdate.tags := Unset |}.

Definition retitle : ResearchListingUpdate.t :=
  {| ResearchListingUpdate.title := Given "Verified AI";
     ResearchListingUpdate.description := Null;
     ResearchListingUpdate.professor_id := Unset;
     ResearchListingUpdate.eligibility := Unset;
     ResearchListingUpdate.tags := Given [] |}.

(** The User document that [signup] writes. *)
Definition user_document (user : UserSignup.t) : doc :=
  {[ "name" := VStr (UserSignup.name user);
     "email" := VStr (UserSignup.email user);
     "role" := VStr (UserSignup.role user);
     "research_interests" := VList (UserSignup.research_interests user) ]}.

Definition account_of (token : string) (user : UserSignup.t) : UserRecord :=
  {| uid := token;
     account_email := UserSignup.email user;
     account_password := UserSignup.password user |}.

Definition demo_signup : UserSignup.t :=
  {| UserSignup.email := "ada@uni.edu";
     UserSignup.password := "s3cret";
     UserSignup.name := "Ada";
     UserSignup.role := "professor";
     UserSignup.research_interests := ["ml"] |}.



(** A second sample world: the professor ["u1"], the listing ["L1"] and no
    application. *)
Definition quiet_world (rs : list reply) : world :=
  {| accounts := [];
     db := {[ "users" := {[ "u1" := professor_doc ]};
              "research_listings" := {[ "L1" := ResearchListing.dict demo_listing ]} ]};
     script := rs |}.

Definition student_signup : UserSignup.t :=
  {| UserSignup.email := "sam@uni.edu";
     UserSignup.password := "pw";
     UserSignup.name := "Sam";
     UserSignup.role := "student";
     UserSignup.research_interests := [] |}.

(** ** The shape of the stored documents *)

(** The two kinds of field of the request models: [str] and [list[str]]. *)
Inductive kind :=
| Text
| TextList.

Definition has_kind (k : kind) (v : value) : bool :=
  match k, v with
  | Text, VStr _ => true
  | TextList, VList _ => true
  | _, _ => false
  end.

(** A document has exactly the fields of the schema, each of its kind. *)
Definition conforms (schema : gmap string kind) (d : doc) : Prop :=
  ∀ f, match schema !! f with
       | Some k => ∃ v, d !! f = Some v ∧ has_kind k v = true
       | None => d !! f = None
       end.

(** [UserSignup] without the password, [ResearchListing] and
    [ResearchApplication]. *)
Definition user_schema : gmap string kind :=
  {[ "name" := Text; "email" := Text; "role" := Text;
     "research_interests" := TextList ]}.

Definition listing_schema : gmap string kind :=
  {[ "title" := Text; "description" := Text; "professor_id" := Text;
     "eligibility" := TextList; "tags" := TextList ]}.

Definition application_schema : gmap string kind :=
  {[ "student_id" := Text; "listing_id" := Text; "student_name" := Text;
     "student_email" := Text; "statement_of_purpose" := Text ]}.

Definition schema_of (c : string) : option (gmap string kind) :=
  if decide (c = "users") then Some user_schema
  else if decide (c = "research_listings") then Some listing_schema
  else if decide (c = "applications") then Some application_schema
  else None.

(** Every document of the three collections has the shape of its model. *)
Definition well_formed (w : world) : Prop :=
  ∀ c schema k d,
    schema_of c = Some schema →
    collection_docs w c !! k = Some d →
    conforms schema d.

(** A computation that keeps the stored documents well formed, whatever
    the services answer and whether it returns or raises. *)
Definition preserves {A} (m : M A) : Prop :=
  ∀ w, well_formed w → well_formed (m w).2.

Definition blank_world (rs : list reply) : world :=
  {| accounts := []; db := ∅; script := rs |}.

(** * Properties *)

(** ** Running the calls to the services *)

Section Calls.
Context {A : Type}.

Lemma bind_ok {B} (m : M B) (f : B → M A) w b w' :
  m w = (Ok b, w') → (m ≫= f) w = f b w'.
Proof. intros H. unfold mbind, M_bind. by rewrite H. Qed.

Lemma bind_raise {B} (m : M B) (f : B → M A) w e w' :
  m w = (Raise e, w') → (m ≫= f) w = (Raise e, w').
Proof. intros H. unfold mbind, M_bind. by rewrite H. Qed.

Lemma try_except_ok (body : M A) handler w a w' :
  body w = (Ok a, w') → try_except body handler w = (Ok a, w').
Proof. intros H. unfold try_except. by rewrite H. Qed.

Lemma try_except_raise (body : M A) handler w e w' :
  body w = (Raise e, w') → try_except body handler w = handler e w'.
Proof. intros H. unfold try_except. by rewrite H. Qed.

End Calls.

Lemma call_served w token rs :
  script w = Served token :: rs → call w = (Ok token, with_script rs w).
Proof. intros H. unfold call. by rewrite H. Qed.

Lemma call_refused w msg rs :
  script w = Refused msg :: rs →
  call w = (Raise (UpstreamError msg), with_script rs w).
Proof. intros H. unfold call. by rewrite H. Qed.

Lemma call_silent w :
  script w = [] → call w = (Raise (UpstreamError "service unavailable"), w).
Proof. intros H. unfold call. by rewrite H. Qed.

(** A call raises nothing but an upstream error, and touches neither the
    accounts nor the store. *)
Lemma call_cases w :
  (∃ token rs, script w = Served token :: rs ∧
               call w = (Ok token, with_script rs w)) ∨
  (∃ msg w', call w = (Raise (UpstreamError msg), w') ∧
             db w' = db w ∧ accounts w' = accounts w).
Proof.
  unfold call. destruct (script w) as [|[token|msg] rs] eqn:E.
  - right. by eexists _, _.
  - left. by eexists _, _.
  - right. by eexists _, _.
Qed.

Lemma collection_docs_with_script rs w c :
  collection_docs (with_script rs w) c = collection_docs w c.
Proof. done. Qed.

Lemma collection_docs_put w c m c' :
  collection_docs (with_db (<[c := m]> (db w)) w) c' =
  if decide (c = c') then m else collection_docs w c'.
Proof.
  unfold collection_docs; simpl. rewrite lookup_insert.
  by case_decide.
Qed.

Lemma get_served c k w token rs :
  script w = Served token :: rs →
  firestore.get c k w = (Ok (collection_docs w c !! k), with_script rs w).
Proof.
  intros H. unfold firestore.get.
  rewrite (bind_ok _ _ _ _ _ (call_served _ _ _ H)). done.
Qed.


Lemma delete_served c k w token rs :
  script w = Served token :: rs →
  firestore.delete c k w =
  (Ok tt, with_script rs
            (with_db (<[c := delete k (collection_docs w c)]> (db w)) w)).
Proof.
  intros H. unfold firestore.delete.
  rewrite (bind_ok _ _ _ _ _ (call_served _ _ _ H)). done.
Qed.

Lemma set_served c k data w token rs :
  script w = Served token :: rs →
  firestore.set c k data w =
  (Ok tt, with_script rs
            (with_db (<[c := <[k := data]> (collection_docs w c)]> (db w)) w)).
Proof.
  intros H. unfold firestore.set.
  rewrite (bind_ok _ _ _ _ _ (call_served _ _ _ H)). done.
Qed.

Lemma set_refused c k data w msg rs :
  script w = Refused msg :: rs →
  firestore.set c k data w = (Raise (UpstreamError msg), with_script rs w).
Proof.
  intros H. unfold firestore.set.
  by rewrite (bind_raise _ _ _ _ _ (call_refused _ _ _ H)).
Qed.

Lemma update_served c k data old w token rs :
  script w = Served token :: rs →
  collection_docs w c !! k = Some old →
  firestore.update c k data w =
  (Ok tt, with_script rs
            (with_db (<[c := <[k := data ∪ old]> (collection_docs w c)]> (db w)) w)).
Proof.
  intros H Hk. unfold firestore.update.
  rewrite (bind_ok _ _ _ _ _ (call_served _ _ _ H)).
  unfold mbind, M_bind, get_world.
  rewrite collection_docs_with_script, Hk. done.
Qed.

Lemma create_user_served email password w token rs :
  script w = Served token :: rs →
  auth.create_user email password w =
  (Ok {| uid := token; account_email := email; account_password := password |},
   with_script rs
     (with_accounts
        (accounts w ++
           [{| uid := token; account_email := email;
               account_password := password |}]) w)).
Proof.
  intros H. unfold auth.create_user.
  rewrite (bind_ok _ _ _ _ _ (call_served _ _ _ H)). done.
Qed.

Lemma stream_served q w token rs :
  script w = Served token :: rs →
  firestore.stream q w =
  (Ok (List.filter (λ kd, firestore.matches q kd.2)
         (map_to_list (collection_docs w (firestore.q_collection q)))),
   with_script rs w).
Proof.
  intros H. unfold firestore.stream.
  rewrite (bind_ok _ _ _ _ _ (call_served _ _ _ H)). done.
Qed.

(** ** DeleteListing *)

(** C10: a [user_id] header that is the empty string is treated as an
    absent header: for every listing identifier the request fails with 401,
    no call to the store is made (the script of replies is untouched) and
    the world is unchanged. *)
Theorem delete_listing_empty_header (listing_id : string) (w : world) :
  delete_listing listing_id (Some "") w = (Raise unauthorized, w) ∧
  delete_listing listing_id (Some "") w = delete_listing listing_id None w.
Proof. done. Qed.


Lemma header_present user_id :
  header_missing user_id = false ↔ ∃ caller, user_id = Some caller ∧ caller ≠ "".
Proof.
  destruct user_id as [caller|]; simpl.
  - rewrite bool_decide_eq_false. split.
    + intros Hne. by exists caller.
    + by intros (c & [= <-] & Hne).
  - split; [done|]. by intros (c & Hc & _).
Qed.

(** The outcome of [delete_listing] once the header is there, as a function
    of the two lookups, when the store answers. *)
Lemma delete_listing_present listing_id caller w t1 t2 t3 rs :
  caller ≠ "" →
  script w = Served t1 :: Served t2 :: Served t3 :: rs →
  delete_listing listing_id (Some caller) w =
  match collection_docs w "users" !! caller with
  | None =>
      (Raise (HTTPException 404 "User not found"),
       with_script (Served t2 :: Served t3 :: rs) w)
  | Some user_data =>
      if decide (user_data !! "role" ≠ Some (VStr "professor"))
      then (Raise (HTTPException 403 "Only professors can delete listings"),
            with_script (Served t2 :: Served t3 :: rs) w)
      else
        match collection_docs w "research_listings" !! listing_id with
        | None =>
            (Raise (HTTPException 404 "Listing not found"),
             with_script (Served t3 :: rs) w)
        | Some _ =>
            (Ok {[ "message" := VStr "Listing deleted successfully" ]},
             with_script rs
               (with_db
                  (<["research_listings" :=
                       delete listing_id (collection_docs w "research_listings")]>
                     (db w)) w))
        end
  end.
Proof.
  intros Hne Hs. unfold delete_listing.
  assert (header_missing (Some caller) = false) as ->
    by (apply header_present; eauto).
  rewrite (bind_ok _ _ _ _ _ (get_served "users" caller _ _ _ Hs)).
  destruct (collection_docs w "users" !! caller) as [user_data|]; [|done].
  case_decide; [done|].
  rewrite (bind_ok _ _ _ _ _
             (get_served "research_listings" listing_id
                (with_script (Served t2 :: Served t3 :: rs) w) t2 (Served t3 :: rs) eq_refl)).
  rewrite collection_docs_with_script.
  destruct (collection_docs w "research_listings" !! listing_id); [|done].
  rewrite (bind_ok _ _ _ _ _
             (delete_served "research_listings" listing_id
                (with_script (Served t3 :: rs) (with_script (Served t2 :: Served t3 :: rs) w))
                t3 rs eq_refl)).
  done.
Qed.



(** ** DeleteApplication *)

(** C7: when the store answers, [delete_application] fails with 404 if no
    application has the identifier, and then the store is unchanged;
    otherwise it deletes the application, and nothing but the existence of
    the application is looked at. *)
Theorem delete_application_spec
  (application_id : string) (w : world) (t1 t2 : string) (rs : list reply) :
  script w = Served t1 :: Served t2 :: rs →
  let applications := collection_docs w "applications" in
  (applications !! application_id = None →
     delete_application application_id w =
     (Raise (HTTPException 404 "Application not found"),
      with_script (Served t2 :: rs) w)) ∧
  (is_Some (applications !! application_id) →
     delete_application application_id w =
     (Ok {[ "message" := VStr "Application deleted successfully" ]},
      with_script rs
        (with_db (<["applications" := delete application_id applications]> (db w))
           w))).
Proof.
  intros Hs applications. subst applications. unfold delete_application.
  rewrite (bind_ok _ _ _ _ _ (get_served "applications" application_id _ _ _ Hs)).
  split.
  - intros ->. done.
  - intros [d ->].
    rewrite (bind_ok _ _ _ _ _
               (delete_served "applications" application_id
                  (with_script (Served t2 :: rs) w) t2 rs eq_refl)).
    done.
Qed.

Lemma delete_application_spec_witness :
  let w := demo_world [Served ""; Served ""] in
  db (delete_application "a9" w).2 = db w ∧
  (delete_application "a9" w).1 = Raise (HTTPException 404 "Application not found") ∧
  (delete_application "a2" w).1 =
    Ok {[ "message" := VStr "Application deleted successfully" ]} ∧
  collection_docs (delete_application "a2" w).2 "applications" !! "a2" = None.
Proof.
  intros w.
  destruct (delete_application_spec "a9" w "" "" [] eq_refl) as [Hnone _].
  destruct (delete_application_spec "a2" w "" "" [] eq_refl) as [_ Hsome].
  rewrite Hnone by (vm_compute; reflexivity).
  rewrite Hsome by (vm_compute; eauto).
  repeat split; vm_compute; reflexivity.
Defined.

(** ** UpdateListing *)

Lemma lookup_write_field k o acc k' :
  write_field k o acc !! k' =
  if decide (k' = k) then match o with Some v => Some v | None => acc !! k end
  else acc !! k'.
Proof.
  unfold write_field. destruct o as [v|].
  - rewrite lookup_insert. repeat case_decide; congruence.
  - case_decide; congruence.
Qed.

Lemma foldl_item {A} k (inj : A → value) (f : supplied A) rest acc :
  foldl (λ (acc : doc) (kv : string * option value),
           match kv.2 with
           | None => acc
           | Some v => <[kv.1 := v]> acc
           end) acc (ResearchListingUpdate.item k inj f ++ rest) =
  foldl (λ (acc : doc) (kv : string * option value),
           match kv.2 with
           | None => acc
           | Some v => <[kv.1 := v]> acc
           end) (write_field k (given inj f) acc) rest.
Proof. by destruct f. Qed.

Lemma update_data_fields listing :
  not_none_items (ResearchListingUpdate.dict_exclude_unset listing) =
  write_field "tags" (given VList (ResearchListingUpdate.tags listing))
    (write_field "eligibility" (given VList (ResearchListingUpdate.eligibility listing))
       (write_field "professor_id" (given VStr (ResearchListingUpdate.professor_id listing))
          (write_field "description" (given VStr (ResearchListingUpdate.description listing))
             (write_field "title" (given VStr (ResearchListingUpdate.title listing)) ∅)))).
Proof.
  unfold not_none_items, ResearchListingUpdate.dict_exclude_unset.
  rewrite !foldl_item.
  rewrite <- (app_nil_r (ResearchListingUpdate.item "tags" _ _)).
  by rewrite foldl_item.
Qed.

(** The dictionary that is sent to the store holds exactly the fields
    supplied with a value that is not null. *)
Lemma update_data_lookup listing k :
  not_none_items (ResearchListingUpdate.dict_exclude_unset listing) !! k =
  non_null_field listing k.
Proof.
  rewrite update_data_fields, !lookup_write_field. unfold non_null_field.
  repeat case_decide; subst; try done;
    repeat match goal with |- context [given ?i ?f] => destruct (given i f) end;
    done.
Qed.

Lemma update_data_empty listing :
  not_none_items (ResearchListingUpdate.dict_exclude_unset listing) = ∅ ↔
  ∀ k, non_null_field listing k = None.
Proof.
  split.
  - intros H k. by rewrite <- update_data_lookup, H.
  - intros H. apply map_eq. intros k. by rewrite update_data_lookup, H.
Qed.

(** The field names are told apart by [non_null_field]: nothing is supplied
    exactly when each of the five fields is left out or sent as [null]. *)
Lemma nothing_supplied listing :
  (∀ k, non_null_field listing k = None) ↔
  given VStr (ResearchListingUpdate.title listing) = None ∧
  given VStr (ResearchListingUpdate.description listing) = None ∧
  given VStr (ResearchListingUpdate.professor_id listing) = None ∧
  given VList (ResearchListingUpdate.eligibility listing) = None ∧
  given VList (ResearchListingUpdate.tags listing) = None.
Proof.
  split.
  - intros H.
    pose proof (H "title"). pose proof (H "description").
    pose proof (H "professor_id"). pose proof (H "eligibility").
    pose proof (H "tags"). done.
  - intros (H1 & H2 & H3 & H4 & H5) k. unfold non_null_field.
    repeat case_decide; done.
Qed.

Lemma get_frame c k w :
  db (firestore.get c k w).2 = db w ∧
  accounts (firestore.get c k w).2 = accounts w.
Proof.
  unfold firestore.get, mbind, M_bind, call.
  by destruct (script w) as [|[token|msg] rs].
Qed.

(** C2: an update whose effective field set is empty writes nothing,
    whatever the store answers; and when the listing exists (and the store
    answers the lookup) it fails with 400, "No valid fields provided for
    update", the stored documents being what they were. *)
Theorem update_listing_no_valid_fields
  (listing_id : string) (listing : ResearchListingUpdate.t) (w : world) :
  (∀ k, non_null_field listing k = None) →
  db (update_listing listing_id listing w).2 = db w ∧
  ∀ stored token rs,
    collection_docs w "research_listings" !! listing_id = Some stored →
    script w = Served token :: rs →
    update_listing listing_id listing w =
    (Raise (HTTPException 400 "No valid fields provided for update"),
     with_script rs w) ∧
    collection_docs (update_listing listing_id listing w).2 "research_listings"
      !! listing_id = Some stored.
Proof.
  intros Hnone. apply update_data_empty in Hnone.
  assert (∀ stored token rs,
    collection_docs w "research_listings" !! listing_id = Some stored →
    script w = Served token :: rs →
    update_listing listing_id listing w =
    (Raise (HTTPException 400 "No valid fields provided for update"),
     with_script rs w)) as Hrun.
  { intros stored token rs Hstored Hs. unfold update_listing.
    rewrite (bind_ok _ _ _ _ _ (get_served "research_listings" listing_id _ _ _ Hs)).
    rewrite Hstored, Hnone. done. }
  split.
  - unfold update_listing, mbind at 1, M_bind at 1.
    pose proof (get_frame "research_listings" listing_id w) as [Hdb _].
    destruct (firestore.get "research_listings" listing_id w) as [[[d|]|e] w'];
      simpl in *; try done.
    rewrite Hnone. done.
  - intros stored token rs Hstored Hs.
    split; [by eapply Hrun|].
    by rewrite (Hrun _ _ _ Hstored Hs).
Qed.

Lemma update_listing_no_valid_fields_witness :
  let w := demo_world [Served ""; Served ""] in
  update_listing "L1" all_null w =
  (Raise (HTTPException 400 "No valid fields provided for update"),
   demo_world [Served ""]).
Proof.
  intros w.
  destruct (update_listing_no_valid_fields "L1" all_null w) as [_ H].
  { apply nothing_supplied. vm_compute. done. }
  destruct (H (ResearchListing.dict demo_listing) "" [Served ""]) as [Hrun _];
    [vm_compute; reflexivity | reflexivity |].
  exact Hrun.
Defined.

(** C3: on an existing listing, an update that supplies at least one field
    with a value that is not null succeeds (when the store answers) and is
    a merge: each such field takes its new value, every other field of the
    listing keeps the value it had, and no other document, collection or
    account changes. *)
Theorem update_listing_merge
  (listing_id : string) (listing : ResearchListingUpdate.t) (w : world)
  (stored : doc) (t1 t2 : string) (rs : list reply) :
  collection_docs w "research_listings" !! listing_id = Some stored →
  (∃ k, is_Some (non_null_field listing k)) →
  script w = Served t1 :: Served t2 :: rs →
  ∃ w' updated,
    update_listing listing_id listing w =
      (Ok {[ "message" := VStr "Listing updated successfully" ]}, w') ∧
    collection_docs w' "research_listings" !! listing_id = Some updated ∧
    (∀ k v, non_null_field listing k = Some v → updated !! k = Some v) ∧
    (∀ k, non_null_field listing k = None → updated !! k = stored !! k) ∧
    (∀ other, other ≠ listing_id →
       collection_docs w' "research_listings" !! other =
       collection_docs w "research_listings" !! other) ∧
    (∀ c, c ≠ "research_listings" → db w' !! c = db w !! c) ∧
    accounts w' = accounts w.
Proof.
  intros Hstored [k0 [v0 Hk0]] Hs.
  set (update_data :=
         not_none_items (ResearchListingUpdate.dict_exclude_unset listing)).
  assert (update_data ≠ ∅) as Hne.
  { intros Hempty.
    pose proof (proj1 (update_data_empty listing) Hempty k0) as Hnone.
    rewrite Hnone in Hk0. done. }
  eexists _, (update_data ∪ stored). split; [|split].
  - unfold update_listing.
    rewrite (bind_ok _ _ _ _ _ (get_served "research_listings" listing_id _ _ _ Hs)).
    rewrite Hstored. fold update_data. rewrite decide_False by done.
    rewrite (bind_ok _ _ _ _ _
               (update_served "research_listings" listing_id update_data stored
                  (with_script (Served t2 :: rs) w) t2 rs eq_refl Hstored)).
    reflexivity.
  - rewrite collection_docs_with_script, collection_docs_put, decide_True by done.
    apply lookup_insert_eq.
  - split; [|split; [|split; [|split]]].
    + intros k v Hk. apply lookup_union_Some_l.
      unfold update_data. by rewrite update_data_lookup.
    + intros k Hk. apply lookup_union_r.
      unfold update_data. by rewrite update_data_lookup.
    + intros other Hother.
      rewrite collection_docs_with_script, collection_docs_put, decide_True by done.
      rewrite collection_docs_with_script. by apply lookup_insert_ne.
    + intros c Hc. simpl. by apply lookup_insert_ne.
    + done.
Qed.

Lemma update_listing_merge_witness :
  let w := demo_world [Served ""; Served ""] in
  (update_listing "L1" retitle w).1 =
    Ok {[ "message" := VStr "Listing updated successfully" ]} ∧
  collection_docs (update_listing "L1" retitle w).2 "research_listings" !! "L1" =
    Some {[ "title" := VStr "Verified AI";
            "description" := VStr "...";
            "professor_id" := VStr "p1";
            "eligibility" := VList ["senior"];
            "tags" := VList [] ]}.
Proof.
  intros w.
  destruct (update_listing_merge "L1" retitle w (ResearchListing.dict demo_listing)
              "" "" []) as (w' & updated & Hrun & _).
  - vm_compute. reflexivity.
  - exists "title". vm_compute. eauto.
  - reflexivity.
  - rewrite Hrun. split; [reflexivity|].
    injection Hrun as <-. vm_compute. reflexivity.
Defined.

(** ** RegisterUser *)

Lemma user_document_dom user :
  dom (user_document user) =
  ({[ "name"; "email"; "role"; "research_interests" ]} : gset string).
Proof.
  unfold user_document. rewrite !dom_insert_L, dom_singleton_L. set_solver.
Qed.

(** C4: when the identity provider accepts the account and issues [token],
    and the store accepts the write, [signup] returns [token] as ["uid"],
    and the User document stored under [token] has exactly the fields
    name, email, role and research_interests of the payload: no password. *)
Theorem signup_returns_document_key
  (user : UserSignup.t) (w : world) (token t2 : string) (rs : list reply) :
  script w = Served token :: Served t2 :: rs →
  ∃ w',
    signup user w =
      (Ok {[ "message" := VStr "User registered successfully";
             "uid" := VStr token ]}, w') ∧
    last (accounts w') = Some (account_of token user) ∧
    collection_docs w' "users" !! token = Some (user_document user) ∧
    dom (user_document user) =
      ({[ "name"; "email"; "role"; "research_interests" ]} : gset string) ∧
    user_document user !! "name" = Some (VStr (UserSignup.name user)) ∧
    user_document user !! "email" = Some (VStr (UserSignup.email user)) ∧
    user_document user !! "role" = Some (VStr (UserSignup.role user)) ∧
    user_document user !! "research_interests" =
      Some (VList (UserSignup.research_interests user)) ∧
    user_document user !! "password" = None.
Proof.
  intros Hs. eexists. split; [|split; [|split; [|split]]].
  - unfold signup. apply try_except_ok.
    rewrite (bind_ok _ _ _ _ _
               (create_user_served (UserSignup.email user) (UserSignup.password user)
                  w token (Served t2 :: rs) Hs)).
    simpl uid.
    erewrite bind_ok; [|by apply (set_served "users" token _ _ t2 rs)].
    reflexivity.
  - simpl. apply last_snoc.
  - rewrite collection_docs_with_script, collection_docs_put, decide_True by done.
    apply lookup_insert_eq.
  - apply user_document_dom.
  - done.
Qed.

Lemma signup_returns_document_key_witness :
  let w := demo_world [Served "u7"; Served ""] in
  (signup demo_signup w).1 =
    Ok {[ "message" := VStr "User registered successfully"; "uid" := VStr "u7" ]} ∧
  collection_docs (signup demo_signup w).2 "users" !! "u7" = Some professor_doc.
Proof.
  intros w.
  destruct (signup_returns_document_key demo_signup w "u7" "" [] eq_refl)
    as (w' & Hrun & _ & Hdoc & _).
  rewrite Hrun. split; [reflexivity|]. exact Hdoc.
Defined.

(** C5: [signup] is not atomic.  When the identity provider creates the
    account and the write of the User document then fails, the handler
    raises a 400 carrying the message of the store, the account stays with
    the identity provider and the store holds no document for it: nothing
    is undone. *)
Theorem signup_not_atomic
  (user : UserSignup.t) (w : world) (token msg : string) (rs : list reply) :
  script w = Served token :: Refused msg :: rs →
  ∃ w',
    signup user w = (Raise (HTTPException 400 msg), w') ∧
    accounts w' = (accounts w ++ [account_of token user])%list ∧
    db w' = db w.
Proof.
  intros Hs. eexists. split; [|split].
  - unfold signup.
    rewrite (try_except_raise _ _ _ (UpstreamError msg)
               (with_script rs
                  (with_accounts (accounts w ++ [account_of token user])%list w))).
    + reflexivity.
    + rewrite (bind_ok _ _ _ _ _
                 (create_user_served (UserSignup.email user) (UserSignup.password user)
                    w token (Refused msg :: rs) Hs)).
      simpl uid.
      apply bind_raise.
      by rewrite (set_refused "users" token _
                    (with_script (Refused msg :: rs)
                       (with_accounts (accounts w ++ [account_of token user])%list w))
                    msg rs eq_refl).
  - done.
  - done.
Qed.

Lemma signup_not_atomic_witness :
  let w := demo_world [Served "u7"; Refused "deadline exceeded"] in
  (signup demo_signup w).1 = Raise (HTTPException 400 "deadline exceeded") ∧
  accounts (signup demo_signup w).2 = [account_of "u7" demo_signup] ∧
  collection_docs (signup demo_signup w).2 "users" !! "u7" = None.
Proof.
  intros w.
  destruct (signup_not_atomic demo_signup w "u7" "deadline exceeded" [] eq_refl)
    as (w' & Hrun & Hacc & Hdb).
  rewrite Hrun. split; [reflexivity|]. split; [exact Hacc|].
  unfold collection_docs. simpl. rewrite Hdb. vm_compute. reflexivity.
Defined.

(** ** ListApplicationsForListing *)

Lemma NoDup_fst_filter {A B} (f : A * B → bool) (l : list (A * B)) :
  NoDup l.*1 → NoDup (List.filter f l).*1.
Proof.
  induction l as [|x l IH]; simpl; [done|].
  rewrite NoDup_cons. intros [Hx Hl].
  destruct (f x); simpl; [|by apply IH].
  apply NoDup_cons. split; [|by apply IH].
  intros Hin. apply Hx.
  apply list_elem_of_fmap in Hin as (y & Hy & Hin).
  apply list_elem_of_fmap. exists y. split; [done|].
  apply list_elem_of_In in Hin. apply filter_In in Hin as [Hin _].
  by apply list_elem_of_In.
Qed.

Lemma elem_of_where_eq (apps : gmap string doc) field v id d :
  (id, d) ∈ List.filter
    (λ kd : string * doc,
       firestore.matches
         (firestore.where_eq (firestore.collection "applications") field v) kd.2)
    (map_to_list apps) ↔
  apps !! id = Some d ∧ d !! field = Some v.
Proof.
  rewrite list_elem_of_In, filter_In, <- list_elem_of_In, elem_of_map_to_list.
  unfold firestore.matches; simpl. by rewrite bool_decide_eq_true.
Qed.

Lemma get_applications_for_listing_served listing_id w token rs :
  script w = Served token :: rs →
  get_applications_for_listing listing_id w =
  (Ok ((λ kd : string * doc, with_id kd.1 kd.2) <$>
         List.filter
           (λ kd : string * doc,
              firestore.matches
                (firestore.where_eq (firestore.collection "applications")
                   "listing_id" (VStr listing_id)) kd.2)
           (map_to_list (collection_docs w "applications"))),
   with_script rs w).
Proof.
  intros Hs. unfold get_applications_for_listing. apply try_except_ok.
  by rewrite (bind_ok _ _ _ _ _ (stream_served _ _ _ _ Hs)).
Qed.



(** ** CreateListing, then GetListing *)

Lemma add_served c data w token rs :
  script w = Served token :: rs →
  collection_docs w c !! token = None →
  firestore.add c data w =
  (Ok token,
   with_script rs
     (with_db (<[c := <[token := data]> (collection_docs w c)]> (db w)) w)).
Proof.
  intros Hs Hfree. unfold firestore.add.
  rewrite (bind_ok _ _ _ _ _ (call_served _ _ _ Hs)).
  unfold mbind, M_bind, get_world.
  by rewrite collection_docs_with_script, Hfree.
Qed.

Lemma add_ok_inv c data w id w' :
  firestore.add c data w = (Ok id, w') →
  ∃ rs, script w = Served id :: rs ∧
        collection_docs w c !! id = None ∧
        w' = with_script rs
               (with_db (<[c := <[id := data]> (collection_docs w c)]> (db w)) w).
Proof.
  unfold firestore.add, mbind, M_bind, call, get_world.
  destruct (script w) as [|[token|msg] rs] eqn:Hs; [done| |done].
  rewrite collection_docs_with_script.
  destruct (collection_docs w c !! token) eqn:Hfree; [done|].
  intros [= <- <-]. by exists rs.
Qed.

Lemma with_id_fresh id (d : doc) :
  d !! "id" = None → with_id id d = <["id" := VStr id]> d.
Proof.
  intros Hid. unfold with_id.
  apply map_eq. intros k. destruct (decide (k = "id")) as [->|Hk].
  - rewrite lookup_insert_eq. rewrite lookup_union_r by done.
    apply lookup_singleton_eq.
  - rewrite lookup_insert_ne by done.
    destruct (d !! k) as [v|] eqn:Hd.
    + by apply lookup_union_Some_l.
    + rewrite lookup_union_r by done. by apply lookup_singleton_ne.
Qed.

Lemma listing_dict_no_id listing : ResearchListing.dict listing !! "id" = None.
Proof. done. Qed.

(** [create_listing] succeeds when the store answers with an identifier that
    is not taken. *)
Lemma create_listing_served listing w token rs :
  script w = Served token :: rs →
  collection_docs w "research_listings" !! token = None →
  create_listing listing w =
  (Ok {[ "message" := VStr "Research listing created";
         "listing_id" := VStr token ]},
   with_script rs
     (with_db
        (<["research_listings" :=
             <[token := ResearchListing.dict listing]>
               (collection_docs w "research_listings")]> (db w)) w)).
Proof.
  intros Hs Hfree. unfold create_listing. apply try_except_ok.
  by rewrite (bind_ok _ _ _ _ _ (add_served _ _ _ _ _ Hs Hfree)).
Qed.

(** C9: after a [create_listing] that succeeded, returning the identifier
    [id] as ["listing_id"], [get_listing id] (when the store answers)
    succeeds and returns the fields of the payload (title, description,
    professor_id, eligibility, tags) plus the key ["id"] bound to [id]. *)
Theorem create_then_get_listing
  (listing : ResearchListing.t) (w w1 : world) (created : doc)
  (token : string) (rs : list reply) :
  create_listing listing w = (Ok created, w1) →
  script w1 = Served token :: rs →
  ∃ id,
    created = {[ "message" := VStr "Research listing created";
                 "listing_id" := VStr id ]} ∧
    get_listing id w1 =
      (Ok (<["id" := VStr id]> (ResearchListing.dict listing)),
       with_script rs w1) ∧
    <["id" := VStr id]> (ResearchListing.dict listing) =
      {[ "id" := VStr id;
         "title" := VStr (ResearchListing.title listing);
         "description" := VStr (ResearchListing.description listing);
         "professor_id" := VStr (ResearchListing.professor_id listing);
         "eligibility" := VList (ResearchListing.eligibility listing);
         "tags" := VList (ResearchListing.tags listing) ]}.
Proof.
  intros Hcreate Hs. unfold create_listing, try_except in Hcreate.
  unfold mbind at 1, M_bind at 1 in Hcreate.
  destruct (firestore.add "research_listings" (ResearchListing.dict listing) w)
    as [[id|e] w0] eqn:Hadd; [|done].
  injection Hcreate as <- <-.
  apply add_ok_inv in Hadd as (rs0 & Hs0 & Hfree & ->).
  exists id. split; [done|]. split; [|done].
  unfold get_listing.
  rewrite (bind_ok _ _ _ _ _ (get_served "research_listings" id _ _ _ Hs)).
  rewrite collection_docs_with_script, collection_docs_put, decide_True by done.
  rewrite lookup_insert_eq.
  by rewrite (with_id_fresh id _ (listing_dict_no_id listing)).
Qed.

Lemma create_then_get_listing_witness :
  let w := demo_world [Served "L2"; Served ""] in
  ∃ created w1,
    create_listing demo_listing w = (Ok created, w1) ∧
    created !! "listing_id" = Some (VStr "L2") ∧
    (get_listing "L2" w1).1 =
      Ok {[ "id" := VStr "L2";
            "title" := VStr "AI Research";
            "description" := VStr "...";
            "professor_id" := VStr "p1";
            "eligibility" := VList ["senior"];
            "tags" := VList ["ml"] ]}.
Proof.
  intros w.
  pose proof (create_listing_served demo_listing w "L2" [Served ""] eq_refl eq_refl)
    as Hcreate.
  destruct (create_then_get_listing demo_listing w _ _ "" [] Hcreate eq_refl)
    as (id & Hcreated & Hget & _).
  eexists _, _. split; [exact Hcreate|].
  assert (id = "L2") as ->.
  { apply (f_equal (λ m : doc, m !! "listing_id")) in Hcreated.
    vm_compute in Hcreated. by injection Hcreated. }
  split; [reflexivity|]. rewrite Hget. reflexivity.
Defined.

(** ** Failures of the identity provider and of the store *)













(** ** Insertion order *)

Lemma apply_to_listing_served application w token rs :
  script w = Served token :: rs →
  collection_docs w "applications" !! token = None →
  apply_to_listing application w =
  (Ok {[ "message" := VStr "Application submitted successfully";
         "application_id" := VStr token ]},
   with_script rs
     (with_db
        (<["applications" :=
             <[token := ResearchApplication.dict application]>
               (collection_docs w "applications")]> (db w)) w)).
Proof.
  intros Hs Hfree. unfold apply_to_listing. apply try_except_ok.
  by rewrite (bind_ok _ _ _ _ _ (add_served _ _ _ _ _ Hs Hfree)).
Qed.

Lemma two_applications a b i j w rs :
  i ≠ j →
  collection_docs w "applications" !! i = None →
  collection_docs w "applications" !! j = None →
  collection_docs
    (apply_to_listing b
       (apply_to_listing a (with_script (Served i :: Served j :: rs) w)).2).2
    "applications" =
  <[j := ResearchApplication.dict b]>
    (<[i := ResearchApplication.dict a]> (collection_docs w "applications")).
Proof.
  intros Hij Hi Hj.
  erewrite (apply_to_listing_served a); [|reflexivity|exact Hi].
  cbn [snd].
  erewrite (apply_to_listing_served b); [|reflexivity|].
  - cbn [snd]. rewrite collection_docs_with_script, collection_docs_put.
    rewrite decide_True by done.
    rewrite collection_docs_with_script, collection_docs_put.
    by rewrite decide_True by done.
  - rewrite collection_docs_with_script, collection_docs_put.
    rewrite decide_True by done. by rewrite lookup_insert_ne.
Qed.

(** Two applications submitted in one order or the other leave the same
    collection, hence the same answers to the queries on it. *)
Lemma insertion_order_irrelevant a b i j w rs :
  i ≠ j →
  collection_docs w "applications" !! i = None →
  collection_docs w "applications" !! j = None →
  collection_docs
    (apply_to_listing b
       (apply_to_listing a (with_script (Served i :: Served j :: rs) w)).2).2
    "applications" =
  collection_docs
    (apply_to_listing a
       (apply_to_listing b (with_script (Served j :: Served i :: rs) w)).2).2
    "applications".
Proof.
  intros Hij Hi Hj.
  rewrite (two_applications a b i j w rs) by done.
  rewrite (two_applications b a j i w rs) by done.
  by apply insert_insert_ne.
Qed.

(** * Further properties of the handlers *)

Lemma collection_docs_put_same w c m :
  collection_docs (with_db (<[c := m]> (db w)) w) c = m.
Proof. by rewrite collection_docs_put, decide_True. Qed.

Lemma collection_docs_put_other w c m c' :
  c ≠ c' → collection_docs (with_db (<[c := m]> (db w)) w) c' = collection_docs w c'.
Proof. intros. by rewrite collection_docs_put, decide_False. Qed.

Lemma collection_docs_with_accounts a w c :
  collection_docs (with_accounts a w) c = collection_docs w c.
Proof. done. Qed.

(** Reading a collection of a world that was written to. *)
Ltac docs_simpl :=
  repeat first
    [ rewrite collection_docs_with_script
    | rewrite collection_docs_with_accounts
    | rewrite collection_docs_put_same
    | rewrite collection_docs_put_other by done ].

(** ** GetListing *)

Lemma get_listing_served listing_id w token rs :
  script w = Served token :: rs →
  get_listing listing_id w =
  (match collection_docs w "research_listings" !! listing_id with
   | Some d => Ok (with_id listing_id d)
   | None => Raise (HTTPException 404 "Listing not found")
   end, with_script rs w).
Proof.
  intros Hs. unfold get_listing.
  rewrite (bind_ok _ _ _ _ _ (get_served "research_listings" listing_id _ _ _ Hs)).
  by destruct (collection_docs w "research_listings" !! listing_id).
Qed.

Lemma lookup_with_id id (d : doc) f :
  with_id id d !! f =
  match d !! f with
  | Some v => Some v
  | None => if decide (f = "id") then Some (VStr id) else None
  end.
Proof.
  unfold with_id. destruct (d !! f) as [v|] eqn:Hd.
  - by apply lookup_union_Some_l.
  - rewrite lookup_union_r by done. case_decide as Hf.
    + subst. apply lookup_singleton_eq.
    + by apply lookup_singleton_ne.
Qed.

(** X1: when the store answers, [get_listing] consumes one reply, raises
    404 "Listing not found" for an identifier with no document and
    otherwise returns the stored fields unchanged, with the key ["id"]
    bound to the identifier unless the document has a field ["id"] of its
    own, which then wins. *)
Theorem get_listing_found_or_404
  (listing_id : string) (w : world) (token : string) (rs : list reply) :
  script w = Served token :: rs →
  let listings := collection_docs w "research_listings" in
  (listings !! listing_id = None →
     get_listing listing_id w =
     (Raise (HTTPException 404 "Listing not found"), with_script rs w)) ∧
  (∀ d, listings !! listing_id = Some d →
     ∃ r, get_listing listing_id w = (Ok r, with_script rs w) ∧
          (∀ f v, d !! f = Some v → r !! f = Some v) ∧
          (∀ f, f ≠ "id" → r !! f = d !! f) ∧
          (d !! "id" = None → r !! "id" = Some (VStr listing_id))).
Proof.
  intros Hs listings. subst listings.
  rewrite (get_listing_served _ _ _ _ Hs). split.
  - by intros ->.
  - intros d ->. eexists. split; [reflexivity|].
    split; [|split].
    + intros f v Hf. by rewrite lookup_with_id, Hf.
    + intros f Hf. rewrite lookup_with_id.
      destruct (d !! f); [done|]. by rewrite decide_False.
    + intros Hid. by rewrite lookup_with_id, Hid.
Qed.

Lemma get_listing_found_or_404_witness :
  (get_listing "L9" (demo_world [Served ""])).1 =
    Raise (HTTPException 404 "Listing not found") ∧
  (∃ r, (get_listing "L1" (demo_world [Served ""])).1 = Ok r ∧
        r !! "id" = Some (VStr "L1") ∧ r !! "title" = Some (VStr "AI Research")).
Proof.
  destruct (get_listing_found_or_404 "L9" (demo_world [Served ""]) "" [] eq_refl)
    as [Habsent _].
  destruct (get_listing_found_or_404 "L1" (demo_world [Served ""]) "" [] eq_refl)
    as [_ Hfound].
  split.
  - rewrite Habsent; [reflexivity | vm_compute; reflexivity].
  - destruct (Hfound (ResearchListing.dict demo_listing)) as (r & Hr & Hkeep & _ & Hid);
      [vm_compute; reflexivity|].
    exists r. rewrite Hr. split; [reflexivity|]. split.
    + apply Hid. vm_compute. reflexivity.
    + apply Hkeep. vm_compute. reflexivity.
Defined.

(** ** UpdateListing on a listing that is not there, and twice *)

(** X2: [update_listing] looks the listing up before it looks at the
    payload: on an identifier with no document it raises 404 "Listing not
    found" for every payload, also one with no valid field, and writes
    nothing. *)
Theorem update_listing_not_found
  (listing_id : string) (listing : ResearchListingUpdate.t) (w : world)
  (token : string) (rs : list reply) :
  script w = Served token :: rs →
  collection_docs w "research_listings" !! listing_id = None →
  update_listing listing_id listing w =
  (Raise (HTTPException 404 "Listing not found"), with_script rs w).
Proof.
  intros Hs Habsent. unfold update_listing.
  rewrite (bind_ok _ _ _ _ _ (get_served "research_listings" listing_id _ _ _ Hs)).
  by rewrite Habsent.
Qed.

Lemma update_listing_not_found_witness :
  update_listing "L9" all_null (demo_world [Served ""]) =
    (Raise (HTTPException 404 "Listing not found"), demo_world []) ∧
  update_listing "L9" retitle (demo_world [Served ""]) =
    (Raise (HTTPException 404 "Listing not found"), demo_world []).
Proof.
  split.
  - apply (update_listing_not_found "L9" all_null (demo_world [Served ""]) "" []);
      [reflexivity | vm_compute; reflexivity].
  - apply (update_listing_not_found "L9" retitle (demo_world [Served ""]) "" []);
      [reflexivity | vm_compute; reflexivity].
Defined.

Lemma update_listing_served listing_id listing w stored t1 t2 rs :
  collection_docs w "research_listings" !! listing_id = Some stored →
  not_none_items (ResearchListingUpdate.dict_exclude_unset listing) ≠ ∅ →
  script w = Served t1 :: Served t2 :: rs →
  update_listing listing_id listing w =
  (Ok {[ "message" := VStr "Listing updated successfully" ]},
   with_script rs
     (with_db
        (<["research_listings" :=
             <[listing_id :=
                 not_none_items (ResearchListingUpdate.dict_exclude_unset listing)
                   ∪ stored]> (collection_docs w "research_listings")]> (db w)) w)).
Proof.
  intros Hstored Hne Hs. unfold update_listing.
  rewrite (bind_ok _ _ _ _ _ (get_served "research_listings" listing_id _ _ _ Hs)).
  rewrite Hstored, decide_False by done.
  rewrite (bind_ok _ _ _ _ _
             (update_served "research_listings" listing_id _ stored
                (with_script (Served t2 :: rs) w) t2 rs eq_refl Hstored)).
  reflexivity.
Qed.

(** X3: [update_listing] is idempotent: sending the same update a second
    time succeeds again and leaves every collection as the first update
    left it. *)
Theorem update_listing_idempotent
  (listing_id : string) (listing : ResearchListingUpdate.t) (w : world)
  (t1 t2 t3 t4 : string) (rs : list reply) :
  is_Some (collection_docs w "research_listings" !! listing_id) →
  (∃ k, is_Some (non_null_field listing k)) →
  script w = Served t1 :: Served t2 :: Served t3 :: Served t4 :: rs →
  let once := update_listing listing_id listing w in
  let twice := update_listing listing_id listing once.2 in
  once.1 = Ok {[ "message" := VStr "Listing updated successfully" ]} ∧
  twice.1 = Ok {[ "message" := VStr "Listing updated successfully" ]} ∧
  ∀ c, collection_docs twice.2 c = collection_docs once.2 c.
Proof.
  intros [stored Hstored] [k0 [v0 Hk0]] Hs once twice. subst once twice.
  assert (not_none_items (ResearchListingUpdate.dict_exclude_unset listing) ≠ ∅)
    as Hne.
  { intros Hempty.
    pose proof (proj1 (update_data_empty listing) Hempty k0) as Hnone.
    by rewrite Hnone in Hk0. }
  rewrite (update_listing_served _ _ _ _ _ _ _ Hstored Hne Hs). cbn [fst snd].
  erewrite (update_listing_served listing_id listing _ _ t3 t4 rs);
    [|by rewrite collection_docs_with_script, collection_docs_put,
         decide_True, lookup_insert_eq by done
     |done|reflexivity].
  cbn [fst snd]. split; [done|]. split; [done|]. intros c.
  destruct (decide (c = "research_listings")) as [->|Hc]; docs_simpl; [|done].
  rewrite insert_insert_eq. f_equal.
  by rewrite (assoc_L (∪)), (idemp_L (∪)).
Qed.

Lemma update_listing_idempotent_witness :
  let once := update_listing "L1" retitle
                (demo_world [Served ""; Served ""; Served ""; Served ""]) in
  (update_listing "L1" retitle once.2).1 =
    Ok {[ "message" := VStr "Listing updated successfully" ]} ∧
  collection_docs (update_listing "L1" retitle once.2).2 "research_listings" =
    collection_docs once.2 "research_listings".
Proof.
  intros once.
  destruct (update_listing_idempotent "L1" retitle
              (demo_world [Served ""; Served ""; Served ""; Served ""])
              "" "" "" "" []) as (_ & Htwice & Hsame).
  - vm_compute. eauto.
  - exists "title". vm_compute. eauto.
  - reflexivity.
  - split; [exact Htwice | apply Hsame].
Defined.

(** ** The listing handlers *)

Lemma filter_true {A} (l : list A) : List.filter (λ _, true) l = l.
Proof. induction l as [|x l IH]; simpl; [done|]. by rewrite IH. Qed.

Lemma get_all_listings_served w token rs :
  script w = Served token :: rs →
  get_all_listings w =
  (Ok ((λ kd : string * doc, with_id kd.1 kd.2) <$>
         map_to_list (collection_docs w "research_listings")),
   with_script rs w).
Proof.
  intros Hs. unfold get_all_listings. apply try_except_ok.
  rewrite (bind_ok _ _ _ _ _ (stream_served _ _ _ _ Hs)).
  unfold firestore.matches; simpl. by rewrite filter_true.
Qed.

Lemma get_student_applications_served student_id w token rs :
  script w = Served token :: rs →
  get_student_applications student_id w =
  (Ok ((λ kd : string * doc, with_id kd.1 kd.2) <$>
         List.filter
           (λ kd : string * doc,
              firestore.matches
                (firestore.where_eq (firestore.collection "applications")
                   "student_id" (VStr student_id)) kd.2)
           (map_to_list (collection_docs w "applications"))),
   with_script rs w).
Proof.
  intros Hs. unfold get_student_applications. apply try_except_ok.
  by rewrite (bind_ok _ _ _ _ _ (stream_served _ _ _ _ Hs)).
Qed.

(** X4: when the store answers, [get_all_listings] returns every listing
    of the store exactly once (as many entries as there are listings), each
    as its fields with ["id"] added; an empty collection gives the empty
    list, not an error. *)
Theorem get_all_listings_exact (w : world) (token : string) (rs : list reply) :
  script w = Served token :: rs →
  let listings := collection_docs w "research_listings" in
  ∃ (found : list (string * doc)) (response : list doc),
    get_all_listings w = (Ok response, with_script rs w) ∧
    response = (λ kd : string * doc, with_id kd.1 kd.2) <$> found ∧
    NoDup found.*1 ∧
    (∀ id d, (id, d) ∈ found ↔ listings !! id = Some d) ∧
    length response = size listings ∧
    (listings = ∅ → response = []).
Proof.
  intros Hs listings. subst listings.
  eexists _, _. split; [exact (get_all_listings_served w token rs Hs)|].
  split; [reflexivity|]. split; [|split; [|split]].
  - apply NoDup_fst_map_to_list.
  - intros id d. apply elem_of_map_to_list.
  - by rewrite length_fmap, length_map_to_list.
  - intros ->. by rewrite map_to_list_empty.
Qed.

Lemma get_all_listings_exact_witness :
  (get_all_listings (demo_world [Served ""])).1 =
    Ok [<["id" := VStr "L1"]> (ResearchListing.dict demo_listing)].
Proof.
  destruct (get_all_listings_exact (demo_world [Served ""]) "" [] eq_refl)
    as (found & response & Hrun & _).
  rewrite Hrun. cbn [fst].
  assert ((get_all_listings (demo_world [Served ""])).1 =
          Ok [<["id" := VStr "L1"]> (ResearchListing.dict demo_listing)])
    as Hresp by (vm_compute; reflexivity).
  by rewrite Hrun in Hresp.
Defined.

(** X5: when the store answers, [get_student_applications S] lists, once
    each, exactly the applications whose [student_id] is the text [S], each
    as its fields with ["id"] added. *)
Theorem get_student_applications_exact
  (S : string) (w : world) (token : string) (rs : list reply) :
  script w = Served token :: rs →
  let applications := collection_docs w "applications" in
  ∃ (found : list (string * doc)) (response : list doc),
    get_student_applications S w = (Ok response, with_script rs w) ∧
    response = (λ kd : string * doc, with_id kd.1 kd.2) <$> found ∧
    NoDup found.*1 ∧
    (∀ id d, (id, d) ∈ found ↔
       applications !! id = Some d ∧ d !! "student_id" = Some (VStr S)).
Proof.
  intros Hs applications. subst applications.
  eexists _, _. split; [exact (get_student_applications_served S w token rs Hs)|].
  split; [reflexivity|]. split.
  - apply NoDup_fst_filter, NoDup_fst_map_to_list.
  - intros id d. apply elem_of_where_eq.
Qed.

Lemma get_student_applications_exact_witness :
  (get_student_applications "s1" (demo_world [Served ""])).1 =
    Ok [<["id" := VStr "a1"]>
          (ResearchApplication.dict (demo_application "s1" "L1"))] ∧
  (get_student_applications "nobody" (demo_world [Served ""])).1 = Ok [].
Proof.
  destruct (get_student_applications_exact "s1" (demo_world [Served ""]) "" [] eq_refl)
    as (found & response & Hrun & _).
  split.
  - assert ((get_student_applications "s1" (demo_world [Served ""])).1 =
            Ok [<["id" := VStr "a1"]>
                  (ResearchApplication.dict (demo_application "s1" "L1"))])
      as Hresp by (vm_compute; reflexivity).
    rewrite Hrun in Hresp |- *. exact Hresp.
  - vm_compute. reflexivity.
Defined.

(** ** Handlers that only read *)

Lemma stream_frame q w :
  db (firestore.stream q w).2 = db w ∧
  accounts (firestore.stream q w).2 = accounts w.
Proof.
  unfold firestore.stream, mbind, M_bind, call.
  by destruct (script w) as [|[token|msg] rs].
Qed.

Lemma try_bad_request_world {A} (body : M A) w :
  (try_except body as_bad_request w).2 = (body w).2.
Proof. unfold try_except. by destruct (body w) as [[a|e] w']. Qed.

Lemma bind_mret_world {A B} (m : M A) (g : A → B) w :
  ((m ≫= λ a, mret (g a)) w).2 = (m w).2.
Proof. unfold mbind, M_bind. by destruct (m w) as [[a|e] w']. Qed.

(** X6: the four reading handlers never write: whatever the store
    answers, and whether they succeed or raise, the collections and the
    accounts are what they were. *)
Theorem reading_handlers_write_nothing (w : world) :
  (db (get_all_listings w).2 = db w ∧
   accounts (get_all_listings w).2 = accounts w) ∧
  (∀ listing_id,
     db (get_listing listing_id w).2 = db w ∧
     accounts (get_listing listing_id w).2 = accounts w) ∧
  (∀ listing_id,
     db (get_applications_for_listing listing_id w).2 = db w ∧
     accounts (get_applications_for_listing listing_id w).2 = accounts w) ∧
  (∀ student_id,
     db (get_student_applications student_id w).2 = db w ∧
     accounts (get_student_applications student_id w).2 = accounts w).
Proof.
  split; [|split; [|split]].
  - unfold get_all_listings.
    rewrite try_bad_request_world, bind_mret_world. apply stream_frame.
  - intros listing_id. unfold get_listing, mbind, M_bind.
    pose proof (get_frame "research_listings" listing_id w) as Hframe.
    by destruct (firestore.get "research_listings" listing_id w) as [[[d|]|e] w'].
  - intros listing_id. unfold get_applications_for_listing.
    rewrite try_bad_request_world, bind_mret_world. apply stream_frame.
  - intros student_id. unfold get_student_applications.
    rewrite try_bad_request_world, bind_mret_world. apply stream_frame.
Qed.

(** ** A refusal at the first call *)

Lemma stream_refused q w msg rs :
  script w = Refused msg :: rs →
  firestore.stream q w = (Raise (UpstreamError msg), with_script rs w).
Proof.
  intros H. unfold firestore.stream.
  by rewrite (bind_raise _ _ _ _ _ (call_refused _ _ _ H)).
Qed.

Lemma add_refused c data w msg rs :
  script w = Refused msg :: rs →
  firestore.add c data w = (Raise (UpstreamError msg), with_script rs w).
Proof.
  intros H. unfold firestore.add.
  by rewrite (bind_raise _ _ _ _ _ (call_refused _ _ _ H)).
Qed.

Lemma create_user_refused email password w msg rs :
  script w = Refused msg :: rs →
  auth.create_user email password w =
  (Raise (UpstreamError msg), with_script rs w).
Proof.
  intros H. unfold auth.create_user.
  by rewrite (bind_raise _ _ _ _ _ (call_refused _ _ _ H)).
Qed.

(** X7: in the six handlers whose body is a [try], a refusal of the first
    call (the identity provider for [signup], the store for the others)
    becomes a 400 whose detail is the message of the service, and nothing
    is recorded: no account, no document. *)
Theorem first_refusal_is_bad_request (w : world) (msg : string) (rs : list reply) :
  script w = Refused msg :: rs →
  let refused {A} : result A * world :=
    (Raise (HTTPException 400 msg), with_script rs w) in
  (∀ user, signup user w = refused) ∧
  (∀ listing, create_listing listing w = refused) ∧
  get_all_listings w = refused ∧
  (∀ application, apply_to_listing application w = refused) ∧
  (∀ listing_id, get_applications_for_listing listing_id w = refused) ∧
  (∀ student_id, get_student_applications student_id w = refused).
Proof.
  intros Hs refused. subst refused.
  split; [|split; [|split; [|split; [|split]]]].
  - intros user. unfold signup.
    rewrite (try_except_raise _ _ _ (UpstreamError msg) (with_script rs w));
      [reflexivity|].
    by rewrite (bind_raise _ _ _ _ _ (create_user_refused _ _ _ _ _ Hs)).
  - intros listing. unfold create_listing.
    rewrite (try_except_raise _ _ _ (UpstreamError msg) (with_script rs w));
      [reflexivity|].
    by rewrite (bind_raise _ _ _ _ _ (add_refused _ _ _ _ _ Hs)).
  - unfold get_all_listings.
    rewrite (try_except_raise _ _ _ (UpstreamError msg) (with_script rs w));
      [reflexivity|].
    by rewrite (bind_raise _ _ _ _ _ (stream_refused _ _ _ _ Hs)).
  - intros application. unfold apply_to_listing.
    rewrite (try_except_raise _ _ _ (UpstreamError msg) (with_script rs w));
      [reflexivity|].
    by rewrite (bind_raise _ _ _ _ _ (add_refused _ _ _ _ _ Hs)).
  - intros listing_id. unfold get_applications_for_listing.
    rewrite (try_except_raise _ _ _ (UpstreamError msg) (with_script rs w));
      [reflexivity|].
    by rewrite (bind_raise _ _ _ _ _ (stream_refused _ _ _ _ Hs)).
  - intros student_id. unfold get_student_applications.
    rewrite (try_except_raise _ _ _ (UpstreamError msg) (with_script rs w));
      [reflexivity|].
    by rewrite (bind_raise _ _ _ _ _ (stream_refused _ _ _ _ Hs)).
Qed.

Lemma first_refusal_is_bad_request_witness :
  signup demo_signup (demo_world [Refused "EMAIL_EXISTS"]) =
    (Raise (HTTPException 400 "EMAIL_EXISTS"), demo_world []) ∧
  get_all_listings (demo_world [Refused "EMAIL_EXISTS"]) =
    (Raise (HTTPException 400 "EMAIL_EXISTS"), demo_world []).
Proof.
  destruct (first_refusal_is_bad_request (demo_world [Refused "EMAIL_EXISTS"])
              "EMAIL_EXISTS" [] eq_refl) as (Hsignup & _ & Hall & _).
  split; [apply Hsignup | apply Hall].
Defined.

(** ** Apply *)

Lemma apply_ok_inv application w r w1 :
  apply_to_listing application w = (Ok r, w1) →
  ∃ id rs,
    script w = Served id :: rs ∧
    collection_docs w "applications" !! id = None ∧
    r = {[ "message" := VStr "Application submitted successfully";
           "application_id" := VStr id ]} ∧
    w1 = with_script rs
           (with_db
              (<["applications" :=
                   <[id := ResearchApplication.dict application]>
                     (collection_docs w "applications")]> (db w)) w).
Proof.
  unfold apply_to_listing, try_except. unfold mbind at 1, M_bind at 1.
  destruct (firestore.add "applications" (ResearchApplication.dict application) w)
    as [[id|e] w0] eqn:Hadd; [|done].
  intros [= <- <-].
  apply add_ok_inv in Hadd as (rs & Hs & Hfree & ->). by exists id, rs.
Qed.

Lemma create_ok_inv listing w r w1 :
  create_listing listing w = (Ok r, w1) →
  ∃ id rs,
    script w = Served id :: rs ∧
    collection_docs w "research_listings" !! id = None ∧
    r = {[ "message" := VStr "Research listing created";
           "listing_id" := VStr id ]} ∧
    w1 = with_script rs
           (with_db
              (<["research_listings" :=
                   <[id := ResearchListing.dict listing]>
                     (collection_docs w "research_listings")]> (db w)) w).
Proof.
  unfold create_listing, try_except. unfold mbind at 1, M_bind at 1.
  destruct (firestore.add "research_listings" (ResearchListing.dict listing) w)
    as [[id|e] w0] eqn:Hadd; [|done].
  intros [= <- <-].
  apply add_ok_inv in Hadd as (rs & Hs & Hfree & ->). by exists id, rs.
Qed.

(** X8: [apply_to_listing] makes one call, the write: it looks up neither
    the student nor the listing, and it does not look for an earlier
    application.  The same payload submitted twice is stored twice, under
    the two identifiers the store issues, and no other collection
    changes. *)
Theorem apply_to_listing_unchecked
  (application : ResearchApplication.t) (i j : string) (w : world)
  (rs : list reply) :
  script w = Served i :: Served j :: rs →
  collection_docs w "applications" !! i = None →
  collection_docs w "applications" !! j = None →
  i ≠ j →
  let first := apply_to_listing application w in
  let second := apply_to_listing application first.2 in
  first.1 = Ok {[ "message" := VStr "Application submitted successfully";
                  "application_id" := VStr i ]} ∧
  second.1 = Ok {[ "message" := VStr "Application submitted successfully";
                   "application_id" := VStr j ]} ∧
  collection_docs second.2 "applications" =
    <[j := ResearchApplication.dict application]>
      (<[i := ResearchApplication.dict application]>
         (collection_docs w "applications")) ∧
  (∀ c, c ≠ "applications" → collection_docs second.2 c = collection_docs w c) ∧
  script second.2 = rs.
Proof.
  intros Hs Hi Hj Hij first second. subst first second.
  rewrite (apply_to_listing_served application w i (Served j :: rs) Hs Hi).
  cbn [fst snd].
  erewrite (apply_to_listing_served application _ j rs); [|reflexivity|].
  2:{ docs_simpl. by rewrite lookup_insert_ne. }
  cbn [fst snd]. split; [done|]. split; [done|]. split; [|split].
  - by docs_simpl.
  - intros c Hc. by docs_simpl.
  - done.
Qed.

Lemma apply_to_listing_unchecked_witness :
  let application := demo_application "nobody" "no-such-listing" in
  let first := apply_to_listing application (quiet_world [Served "a1"; Served "a2"]) in
  let second := apply_to_listing application first.2 in
  collection_docs second.2 "applications" =
    {[ "a1" := ResearchApplication.dict application;
       "a2" := ResearchApplication.dict application ]}.
Proof.
  intros application first second.
  destruct (apply_to_listing_unchecked application "a1" "a2"
              (quiet_world [Served "a1"; Served "a2"]) [])
    as (_ & _ & Hstored & _); [reflexivity | reflexivity | reflexivity | done |].
  subst first second. rewrite Hstored. vm_compute. reflexivity.
Defined.

(** X9: an application that was accepted is found by both queries: after
    a successful [apply_to_listing] returning [id], the applications listed
    for the [listing_id] of the payload and those listed for its
    [student_id] both contain the payload's fields with ["id"] bound to
    [id]. *)
Theorem apply_then_listed
  (application : ResearchApplication.t) (w w1 : world) (r : doc)
  (token : string) (rs : list reply) :
  apply_to_listing application w = (Ok r, w1) →
  script w1 = Served token :: rs →
  ∃ id entry,
    r !! "application_id" = Some (VStr id) ∧
    entry = <["id" := VStr id]> (ResearchApplication.dict application) ∧
    (∃ response,
       (get_applications_for_listing
          (ResearchApplication.listing_id application) w1).1 = Ok response ∧
       entry ∈ response) ∧
    (∃ response,
       (get_student_applications
          (ResearchApplication.student_id application) w1).1 = Ok response ∧
       entry ∈ response).
Proof.
  intros Happly Hs.
  apply apply_ok_inv in Happly as (id & rs0 & Hs0 & Hfree & -> & ->).
  exists id, (with_id id (ResearchApplication.dict application)).
  split; [done|]. split; [by apply with_id_fresh|].
  assert (collection_docs
            (with_script rs0
               (with_db
                  (<["applications" :=
                       <[id := ResearchApplication.dict application]>
                         (collection_docs w "applications")]> (db w)) w))
            "applications" !! id = Some (ResearchApplication.dict application))
    as Hstored by (docs_simpl; apply lookup_insert_eq).
  split.
  - rewrite (get_applications_for_listing_served _ _ _ _ Hs). eexists.
    split; [reflexivity|].
    apply (list_elem_of_fmap_2' _ _ (id, ResearchApplication.dict application));
      [|done].
    by apply elem_of_where_eq.
  - rewrite (get_student_applications_served _ _ _ _ Hs). eexists.
    split; [reflexivity|].
    apply (list_elem_of_fmap_2' _ _ (id, ResearchApplication.dict application));
      [|done].
    by apply elem_of_where_eq.
Qed.

Lemma apply_then_listed_witness :
  ∃ r w1 response,
    apply_to_listing (demo_application "s1" "L1")
      (quiet_world [Served "a1"; Served ""]) = (Ok r, w1) ∧
    (get_applications_for_listing "L1" w1).1 = Ok response ∧
    <["id" := VStr "a1"]> (ResearchApplication.dict (demo_application "s1" "L1"))
      ∈ response.
Proof.
  pose proof (apply_to_listing_served (demo_application "s1" "L1")
                (quiet_world [Served "a1"; Served ""]) "a1" [Served ""]
                eq_refl eq_refl) as Happly.
  destruct (apply_then_listed _ _ _ _ "" [] Happly eq_refl)
    as (id & entry & Hid & -> & (response & Hresp & Hin) & _).
  assert (id = "a1") as -> by (vm_compute in Hid; by injection Hid).
  eexists _, _, response. split; [exact Happly|]. by split.
Defined.

(** ** Create or apply, then delete *)

Lemma delete_application_absent application_id w token rs :
  script w = Served token :: rs →
  collection_docs w "applications" !! application_id = None →
  delete_application application_id w =
  (Raise (HTTPException 404 "Application not found"), with_script rs w).
Proof.
  intros Hs Habsent. unfold delete_application.
  rewrite (bind_ok _ _ _ _ _ (get_served "applications" application_id _ _ _ Hs)).
  by rewrite Habsent.
Qed.

Lemma delete_application_present application_id w d t1 t2 rs :
  script w = Served t1 :: Served t2 :: rs →
  collection_docs w "applications" !! application_id = Some d →
  delete_application application_id w =
  (Ok {[ "message" := VStr "Application deleted successfully" ]},
   with_script rs
     (with_db
        (<["applications" :=
             delete application_id (collection_docs w "applications")]> (db w)) w)).
Proof.
  intros Hs Hd. unfold delete_application.
  rewrite (bind_ok _ _ _ _ _ (get_served "applications" application_id _ _ _ Hs)).
  rewrite Hd.
  by rewrite (bind_ok _ _ _ _ _
                (delete_served "applications" application_id
                   (with_script (Served t2 :: rs) w) t2 rs eq_refl)).
Qed.

(** X10: deleting an application that was just accepted undoes the
    submission: every collection reads as it did before
    [apply_to_listing]. *)
Theorem apply_then_delete
  (application : ResearchApplication.t) (w w1 : world) (r : doc)
  (t1 t2 : string) (rs : list reply) :
  apply_to_listing application w = (Ok r, w1) →
  script w1 = Served t1 :: Served t2 :: rs →
  ∃ id,
    r !! "application_id" = Some (VStr id) ∧
    (delete_application id w1).1 =
      Ok {[ "message" := VStr "Application deleted successfully" ]} ∧
    ∀ c, collection_docs (delete_application id w1).2 c = collection_docs w c.
Proof.
  intros Happly Hs.
  apply apply_ok_inv in Happly as (id & rs0 & Hs0 & Hfree & -> & ->).
  exists id. split; [done|].
  erewrite delete_application_present; [|exact Hs|].
  2:{ docs_simpl. apply lookup_insert_eq. }
  cbn [fst snd]. split; [done|]. intros c.
  destruct (decide (c = "applications")) as [->|Hc]; docs_simpl; [|done].
  by apply delete_insert_id.
Qed.

Lemma apply_then_delete_witness :
  ∃ r w1,
    apply_to_listing (demo_application "s1" "L1")
      (demo_world [Served "a7"; Served ""; Served ""]) = (Ok r, w1) ∧
    collection_docs (delete_application "a7" w1).2 "applications" =
    collection_docs (demo_world []) "applications".
Proof.
  pose proof (apply_to_listing_served (demo_application "s1" "L1")
                (demo_world [Served "a7"; Served ""; Served ""]) "a7"
                [Served ""; Served ""] eq_refl eq_refl) as Happly.
  destruct (apply_then_delete _ _ _ _ "" "" [] Happly eq_refl)
    as (id & Hid & _ & Hsame).
  assert (id = "a7") as -> by (vm_compute in Hid; by injection Hid).
  eexists _, _. split; [exact Happly|]. apply Hsame.
Defined.

(** X11: a professor who deletes a listing that was just created undoes
    the creation: every collection reads as it did before
    [create_listing]. *)
Theorem create_then_delete_listing
  (listing : ResearchListing.t) (caller : string) (user_data : doc)
  (w w1 : world) (r : doc) (t1 t2 t3 : string) (rs : list reply) :
  create_listing listing w = (Ok r, w1) →
  script w1 = Served t1 :: Served t2 :: Served t3 :: rs →
  caller ≠ "" →
  collection_docs w "users" !! caller = Some user_data →
  user_data !! "role" = Some (VStr "professor") →
  ∃ id,
    r !! "listing_id" = Some (VStr id) ∧
    (delete_listing id (Some caller) w1).1 =
      Ok {[ "message" := VStr "Listing deleted successfully" ]} ∧
    ∀ c, collection_docs (delete_listing id (Some caller) w1).2 c =
         collection_docs w c.
Proof.
  intros Hcreate Hs Hne Hu Hrole.
  apply create_ok_inv in Hcreate as (id & rs0 & Hs0 & Hfree & -> & ->).
  exists id. split; [done|].
  rewrite (delete_listing_present id caller _ t1 t2 t3 rs Hne Hs).
  docs_simpl. rewrite Hu, decide_False by (by intros []).
  rewrite lookup_insert_eq. cbn [fst snd]. split; [done|]. intros c.
  destruct (decide (c = "research_listings")) as [->|Hc]; docs_simpl; [|done].
  by apply delete_insert_id.
Qed.

Lemma create_then_delete_listing_witness :
  ∃ r w1,
    create_listing demo_listing
      (demo_world [Served "L2"; Served ""; Served ""; Served ""]) = (Ok r, w1) ∧
    collection_docs (delete_listing "L2" (Some "u1") w1).2 "research_listings" =
    collection_docs (demo_world []) "research_listings".
Proof.
  pose proof (create_listing_served demo_listing
                (demo_world [Served "L2"; Served ""; Served ""; Served ""]) "L2"
                [Served ""; Served ""; Served ""] eq_refl eq_refl) as Hcreate.
  destruct (create_then_delete_listing demo_listing "u1" professor_doc
              _ _ _ "" "" "" [] Hcreate eq_refl)
    as (id & Hid & _ & Hsame); [done | reflexivity | reflexivity |].
  assert (id = "L2") as -> by (vm_compute in Hid; by injection Hid).
  eexists _, _. split; [exact Hcreate|]. apply Hsame.
Defined.

(** ** Deleting twice *)

(** X12: once an application is deleted, deleting it again raises 404
    "Application not found" and changes nothing. *)
Theorem delete_application_twice
  (application_id : string) (w : world) (t1 t2 t3 : string) (rs : list reply) :
  is_Some (collection_docs w "applications" !! application_id) →
  script w = Served t1 :: Served t2 :: Served t3 :: rs →
  let first := delete_application application_id w in
  first.1 = Ok {[ "message" := VStr "Application deleted successfully" ]} ∧
  delete_application application_id first.2 =
    (Raise (HTTPException 404 "Application not found"), with_script rs first.2).
Proof.
  intros [d Hd] Hs first. subst first.
  rewrite (delete_application_present _ _ _ _ _ _ Hs Hd). cbn [fst snd].
  split; [done|].
  erewrite delete_application_absent; [reflexivity|reflexivity|].
  docs_simpl. apply lookup_delete_eq.
Qed.

Lemma delete_application_twice_witness :
  let first := delete_application "a1" (demo_world [Served ""; Served ""; Served ""]) in
  (delete_application "a1" first.2).1 =
    Raise (HTTPException 404 "Application not found").
Proof.
  intros first.
  destruct (delete_application_twice "a1"
              (demo_world [Served ""; Served ""; Served ""]) "" "" "" [])
    as [_ Hsecond]; [vm_compute; eauto | reflexivity |].
  subst first. by rewrite Hsecond.
Defined.

Lemma delete_listing_listing_absent listing_id caller user_data w t1 t2 rs :
  caller ≠ "" →
  script w = Served t1 :: Served t2 :: rs →
  collection_docs w "users" !! caller = Some user_data →
  user_data !! "role" = Some (VStr "professor") →
  collection_docs w "research_listings" !! listing_id = None →
  delete_listing listing_id (Some caller) w =
  (Raise (HTTPException 404 "Listing not found"), with_script rs w).
Proof.
  intros Hne Hs Hu Hrole Habsent. unfold delete_listing.
  assert (header_missing (Some caller) = false) as ->
    by (apply header_present; eauto).
  rewrite (bind_ok _ _ _ _ _ (get_served "users" caller _ _ _ Hs)).
  rewrite Hu, decide_False by (by intros []).
  rewrite (bind_ok _ _ _ _ _
             (get_served "research_listings" listing_id
                (with_script (Served t2 :: rs) w) t2 rs eq_refl)).
  docs_simpl. by rewrite Habsent.
Qed.

(** X13: once a professor has deleted a listing, the same request again
    raises 404 "Listing not found" and changes nothing. *)
Theorem delete_listing_twice
  (listing_id caller : string) (user_data : doc) (w : world)
  (t1 t2 t3 t4 t5 : string) (rs : list reply) :
  caller ≠ "" →
  collection_docs w "users" !! caller = Some user_data →
  user_data !! "role" = Some (VStr "professor") →
  is_Some (collection_docs w "research_listings" !! listing_id) →
  script w = Served t1 :: Served t2 :: Served t3 :: Served t4 :: Served t5 :: rs →
  let first := delete_listing listing_id (Some caller) w in
  first.1 = Ok {[ "message" := VStr "Listing deleted successfully" ]} ∧
  delete_listing listing_id (Some caller) first.2 =
    (Raise (HTTPException 404 "Listing not found"), with_script rs first.2).
Proof.
  intros Hne Hu Hrole [d Hd] Hs first. subst first.
  rewrite (delete_listing_present listing_id caller w t1 t2 t3 _ Hne Hs).
  rewrite Hu, decide_False, Hd by (by intros []). cbn [fst snd].
  split; [done|].
  erewrite (delete_listing_listing_absent listing_id caller user_data);
    [reflexivity | done | reflexivity | | done |].
  - by docs_simpl.
  - docs_simpl. apply lookup_delete_eq.
Qed.

Lemma delete_listing_twice_witness :
  let first := delete_listing "L1" (Some "u1")
                 (demo_world [Served ""; Served ""; Served ""; Served ""; Served ""]) in
  (delete_listing "L1" (Some "u1") first.2).1 =
    Raise (HTTPException 404 "Listing not found").
Proof.
  intros first.
  destruct (delete_listing_twice "L1" "u1" professor_doc
              (demo_world [Served ""; Served ""; Served ""; Served ""; Served ""])
              "" "" "" "" "" [])
    as [_ Hsecond];
    [done | reflexivity | reflexivity | vm_compute; eauto | reflexivity |].
  subst first. by rewrite Hsecond.
Defined.

(** ** Signup, then DeleteListing *)

Lemma signup_served user w token t2 rs :
  script w = Served token :: Served t2 :: rs →
  signup user w =
  (Ok {[ "message" := VStr "User registered successfully";
         "uid" := VStr token ]},
   with_script rs
     (with_accounts (accounts w ++ [account_of token user])%list
        (with_db
           (<["users" := <[token := user_document user]> (collection_docs w "users")]>
              (db w)) w))).
Proof.
  intros Hs. unfold signup. apply try_except_ok.
  rewrite (bind_ok _ _ _ _ _
             (create_user_served (UserSignup.email user) (UserSignup.password user)
                w token (Served t2 :: rs) Hs)).
  simpl uid.
  erewrite bind_ok; [|by apply (set_served "users" token _ _ t2 rs)].
  reflexivity.
Qed.

(** X14: the role given at signup is what [delete_listing] checks later.
    A user registered with the role ["professor"] can delete an existing
    listing at once; registered with any other text (the role is not
    validated at signup) the same request raises 403 and deletes
    nothing. *)
Theorem signup_role_gates_deletion
  (user : UserSignup.t) (listing_id : string) (w : world)
  (uid t2 t3 t4 t5 : string) (rs : list reply) :
  script w = Served uid :: Served t2 :: Served t3 :: Served t4 :: Served t5 :: rs →
  uid ≠ "" →
  is_Some (collection_docs w "research_listings" !! listing_id) →
  let registered := signup user w in
  let outcome := delete_listing listing_id (Some uid) registered.2 in
  registered.1 = Ok {[ "message" := VStr "User registered successfully";
                       "uid" := VStr uid ]} ∧
  (UserSignup.role user = "professor" →
     outcome.1 = Ok {[ "message" := VStr "Listing deleted successfully" ]} ∧
     collection_docs outcome.2 "research_listings" !! listing_id = None) ∧
  (UserSignup.role user ≠ "professor" →
     outcome.1 = Raise (HTTPException 403 "Only professors can delete listings") ∧
     ∀ c, collection_docs outcome.2 c = collection_docs registered.2 c).
Proof.
  intros Hs Hne [d Hd] registered outcome. subst registered outcome.
  rewrite (signup_served user w uid t2 _ Hs). cbn [fst snd].
  split; [done|].
  erewrite (delete_listing_present listing_id uid _ t3 t4 t5 rs Hne);
    [|reflexivity].
  docs_simpl. rewrite lookup_insert_eq.
  assert (user_document user !! "role" = Some (VStr (UserSignup.role user)))
    as Hrole by done.
  split.
  - intros Hprof. rewrite decide_False by (rewrite Hrole, Hprof; by intros []).
    rewrite Hd. cbn [fst snd]. split; [done|].
    docs_simpl. apply lookup_delete_eq.
  - intros Hother. rewrite decide_True by (rewrite Hrole; congruence).
    cbn [fst snd]. split; [done|]. intros c. by docs_simpl.
Qed.

Lemma signup_role_gates_deletion_witness :
  let w := demo_world [Served "u7"; Served ""; Served ""; Served ""; Served ""] in
  (delete_listing "L1" (Some "u7") (signup demo_signup w).2).1 =
    Ok {[ "message" := VStr "Listing deleted successfully" ]}.
Proof.
  intros w.
  destruct (signup_role_gates_deletion demo_signup "L1" w "u7" "" "" "" "" [])
    as (_ & Hprof & _); [reflexivity | done | vm_compute; eauto |].
  by destruct (Hprof eq_refl) as [Hok _].
Defined.

(** ** No cascade *)

Lemma get_world_after c k w : ∃ rs, (firestore.get c k w).2 = with_script rs w.
Proof.
  unfold firestore.get, mbind, M_bind, call.
  destruct (script w) as [|[token|msg] rs] eqn:Hs; simpl.
  - exists []. destruct w; simpl in *; by subst.
  - by exists rs.
  - by exists rs.
Qed.

Lemma delete_world_after c k w :
  ∃ rs,
    (firestore.delete c k w).2 = with_script rs w ∨
    (firestore.delete c k w).2 =
      with_script rs
        (with_db (<[c := delete k (collection_docs w c)]> (db w)) w).
Proof.
  unfold firestore.delete, mbind, M_bind, call.
  destruct (script w) as [|[token|msg] rs] eqn:Hs; simpl.
  - exists []. left. destruct w; simpl in *; by subst.
  - exists rs. by right.
  - exists rs. by left.
Qed.

Lemma delete_listing_world_after (P : world → Prop) listing_id user_id w :
  (∀ rs, P (with_script rs w)) →
  (∀ rs,
     P (with_script rs
          (with_db
             (<["research_listings" :=
                  delete listing_id (collection_docs w "research_listings")]> (db w))
             w))) →
  P (delete_listing listing_id user_id w).2.
Proof.
  intros Hsame Hdeleted.
  assert (w = with_script (script w) w) as Hw by by destruct w.
  unfold delete_listing.
  destruct user_id as [caller|]; [|rewrite Hw; apply Hsame].
  destruct (header_missing (Some caller)); [rewrite Hw; apply Hsame|].
  unfold mbind at 1, M_bind at 1.
  destruct (get_world_after "users" caller w) as [rs1 H1].
  destruct (firestore.get "users" caller w) as [[[user_data|]|e] w1];
    simpl in H1; subst w1; [|apply Hsame..].
  case_decide; [apply Hsame|].
  unfold mbind at 1, M_bind at 1.
  destruct (get_world_after "research_listings" listing_id (with_script rs1 w))
    as [rs2 H2].
  destruct (firestore.get "research_listings" listing_id (with_script rs1 w))
    as [[[d|]|e] w2]; simpl in H2; subst w2; [|apply (Hsame rs2)..].
  unfold mbind, M_bind.
  destruct (delete_world_after "research_listings" listing_id
              (with_script rs2 (with_script rs1 w))) as [rs3 H3].
  destruct (firestore.delete "research_listings" listing_id
              (with_script rs2 (with_script rs1 w))) as [[u|e] w3];
    simpl in H3; destruct H3 as [-> | ->]; cbn [snd];
    [apply (Hsame rs3) | apply (Hdeleted rs3) | apply (Hsame rs3) | apply (Hdeleted rs3)].
Qed.

Lemma delete_listing_frame listing_id user_id w c :
  c ≠ "research_listings" →
  collection_docs (delete_listing listing_id user_id w).2 c = collection_docs w c ∧
  accounts (delete_listing listing_id user_id w).2 = accounts w.
Proof.
  intros Hc.
  apply (delete_listing_world_after
           (λ w', collection_docs w' c = collection_docs w c ∧
                  accounts w' = accounts w));
    intros rs; split; by docs_simpl.
Qed.

(** X15: deleting a listing does not cascade.  Whatever its outcome,
    [delete_listing] leaves the users, the applications and the accounts as
    they were; in particular the applications to a deleted listing are
    still there, and still listed for it. *)
Theorem delete_listing_no_cascade
  (listing_id : string) (user_id : option string) (w : world) :
  let after := (delete_listing listing_id user_id w).2 in
  collection_docs after "applications" = collection_docs w "applications" ∧
  collection_docs after "users" = collection_docs w "users" ∧
  accounts after = accounts w ∧
  ∀ X token rs token' rs',
    script after = Served token :: rs →
    script w = Served token' :: rs' →
    (get_applications_for_listing X after).1 =
    (get_applications_for_listing X w).1.
Proof.
  intros after. subst after.
  destruct (delete_listing_frame listing_id user_id w "applications") as [Happs Hacc];
    [done|].
  destruct (delete_listing_frame listing_id user_id w "users") as [Husers _];
    [done|].
  split; [done|]. split; [done|]. split; [done|].
  intros X token rs token' rs' Hs Hs'.
  rewrite (get_applications_for_listing_served X _ token rs Hs).
  rewrite (get_applications_for_listing_served X _ token' rs' Hs').
  cbn [fst]. by rewrite Happs.
Qed.

Lemma delete_listing_no_cascade_witness :
  let w := demo_world [Served ""; Served ""; Served ""; Served ""] in
  let after := (delete_listing "L1" (Some "u1") w).2 in
  collection_docs after "research_listings" !! "L1" = None ∧
  (get_applications_for_listing "L1" after).1 =
    Ok [<["id" := VStr "a3"]>
          (ResearchApplication.dict (demo_application "s2" "L1"));
        <["id" := VStr "a1"]>
          (ResearchApplication.dict (demo_application "s1" "L1"))].
Proof.
  intros w after.
  destruct (delete_listing_no_cascade "L1" (Some "u1") w) as (_ & _ & _ & Hsame).
  split; [vm_compute; reflexivity|].
  subst after. rewrite (Hsame "L1" "" [] "" [Served ""; Served ""; Served ""]);
    [|reflexivity..].
  vm_compute. reflexivity.
Defined.

(** ** The shape of the stored documents is kept *)

Lemma conforms_empty : conforms ∅ ∅.
Proof. intros f. by rewrite !lookup_empty. Qed.

Lemma conforms_insert schema d f k v :
  conforms schema d → has_kind k v = true →
  conforms (<[f := k]> schema) (<[f := v]> d).
Proof.
  intros Hd Hk f'. destruct (decide (f = f')) as [->|Hf].
  - rewrite !lookup_insert_eq. eauto.
  - rewrite !lookup_insert_ne by done. apply Hd.
Qed.

Lemma conforms_user_document user : conforms user_schema (user_document user).
Proof.
  unfold user_schema, user_document. rewrite <- !insert_empty.
  repeat (apply conforms_insert; [|done]). apply conforms_empty.
Qed.

Lemma conforms_listing_dict listing :
  conforms listing_schema (ResearchListing.dict listing).
Proof.
  unfold listing_schema, ResearchListing.dict. rewrite <- !insert_empty.
  repeat (apply conforms_insert; [|done]). apply conforms_empty.
Qed.

Lemma conforms_application_dict application :
  conforms application_schema (ResearchApplication.dict application).
Proof.
  unfold application_schema, ResearchApplication.dict. rewrite <- !insert_empty.
  repeat (apply conforms_insert; [|done]). apply conforms_empty.
Qed.

(** A field of an update that is not null is a field of the listing
    model, with a value of its kind. *)
Lemma non_null_field_kind listing f v :
  non_null_field listing f = Some v →
  ∃ k, listing_schema !! f = Some k ∧ has_kind k v = true.
Proof.
  unfold non_null_field.
  repeat case_decide; subst; try done;
    match goal with |- given _ ?x = _ → _ => destruct x end;
    try done; intros [= <-]; eexists; split; reflexivity.
Qed.

Lemma conforms_update listing old :
  conforms listing_schema old →
  conforms listing_schema
    (not_none_items (ResearchListingUpdate.dict_exclude_unset listing) ∪ old).
Proof.
  intros Hold f. specialize (Hold f).
  destruct (non_null_field listing f) as [v|] eqn:Hf.
  - destruct (non_null_field_kind _ _ _ Hf) as (k & -> & Hk).
    exists v. split; [|done].
    apply lookup_union_Some_l. by rewrite update_data_lookup.
  - rewrite lookup_union_r by (by rewrite update_data_lookup). exact Hold.
Qed.

Lemma well_formed_with_script rs w : well_formed w → well_formed (with_script rs w).
Proof. done. Qed.

Lemma well_formed_with_accounts a w :
  well_formed w → well_formed (with_accounts a w).
Proof. done. Qed.

Lemma well_formed_put c m w :
  well_formed w →
  (∀ schema k d, schema_of c = Some schema → m !! k = Some d → conforms schema d) →
  well_formed (with_db (<[c := m]> (db w)) w).
Proof.
  intros Hw Hm c' schema k d Hschema.
  destruct (decide (c = c')) as [<-|Hc]; docs_simpl; [by apply Hm|by apply Hw].
Qed.

Lemma well_formed_insert c k d w :
  well_formed w →
  (∀ schema, schema_of c = Some schema → conforms schema d) →
  well_formed (with_db (<[c := <[k := d]> (collection_docs w c)]> (db w)) w).
Proof.
  intros Hw Hd. apply well_formed_put; [done|].
  intros schema k' d' Hschema. destruct (decide (k = k')) as [<-|Hk].
  - rewrite lookup_insert_eq. intros [= <-]. by apply Hd.
  - rewrite lookup_insert_ne by done. by apply Hw.
Qed.

Lemma well_formed_delete c k w :
  well_formed w →
  well_formed (with_db (<[c := delete k (collection_docs w c)]> (db w)) w).
Proof.
  intros Hw. apply well_formed_put; [done|].
  intros schema k' d' Hschema Hlookup.
  apply lookup_delete_Some in Hlookup as [_ Hlookup]. by eapply Hw.
Qed.

Section Preserves.
Context {A B : Type}.

Lemma preserves_ret (a : A) : preserves (mret a).
Proof. by intros w. Qed.

Lemma preserves_raise (e : exn) : preserves (raise e : M A).
Proof. by intros w. Qed.

Lemma preserves_bind (m : M A) (f : A → M B) :
  preserves m → (∀ a, preserves (f a)) → preserves (m ≫= f).
Proof.
  intros Hm Hf w Hw. unfold mbind, M_bind.
  specialize (Hm w Hw). destruct (m w) as [[a|e] w']; [by apply Hf|done].
Qed.

Lemma preserves_try (body : M A) :
  preserves body → preserves (try_except body as_bad_request).
Proof.
  intros Hbody w Hw. unfold try_except.
  specialize (Hbody w Hw). by destruct (body w) as [[a|e] w'].
Qed.

End Preserves.

Lemma preserves_call : preserves call.
Proof.
  intros w Hw. unfold call. by destruct (script w) as [|[token|msg] rs].
Qed.

Lemma preserves_get c k : preserves (firestore.get c k).
Proof.
  apply preserves_bind; [apply preserves_call|]. intros _.
  apply preserves_bind; [by intros w|]. intros w. apply preserves_ret.
Qed.

Lemma preserves_stream q : preserves (firestore.stream q).
Proof.
  apply preserves_bind; [apply preserves_call|]. intros _.
  apply preserves_bind; [by intros w|]. intros w. apply preserves_ret.
Qed.

Lemma preserves_delete c k : preserves (firestore.delete c k).
Proof.
  apply preserves_bind; [apply preserves_call|]. intros _.
  intros w Hw. by apply well_formed_delete.
Qed.

Lemma preserves_set c k d :
  (∀ schema, schema_of c = Some schema → conforms schema d) →
  preserves (firestore.set c k d).
Proof.
  intros Hd. apply preserves_bind; [apply preserves_call|]. intros _.
  intros w Hw. by apply well_formed_insert.
Qed.

Lemma preserves_add c d :
  (∀ schema, schema_of c = Some schema → conforms schema d) →
  preserves (firestore.add c d).
Proof.
  intros Hd. apply preserves_bind; [apply preserves_call|]. intros token.
  intros w Hw. unfold mbind, M_bind, get_world.
  destruct (collection_docs w c !! token); [done|].
  by apply well_formed_insert.
Qed.

Lemma preserves_update c k data :
  (∀ schema old, schema_of c = Some schema →
     conforms schema old → conforms schema (data ∪ old)) →
  preserves (firestore.update c k data).
Proof.
  intros Hd. apply preserves_bind; [apply preserves_call|]. intros _.
  intros w Hw. unfold mbind, M_bind, get_world.
  destruct (collection_docs w c !! k) as [old|] eqn:Hold; [|done].
  apply well_formed_insert; [done|].
  intros schema Hschema. apply Hd; [done|]. by eapply Hw.
Qed.

Lemma preserves_create_user email password :
  preserves (auth.create_user email password).
Proof.
  apply preserves_bind; [apply preserves_call|]. intros token.
  apply preserves_bind; [by intros w|]. intros _. apply preserves_ret.
Qed.

Lemma schema_of_users schema :
  schema_of "users" = Some schema → schema = user_schema.
Proof. by intros [= <-]. Qed.

Lemma schema_of_listings schema :
  schema_of "research_listings" = Some schema → schema = listing_schema.
Proof. by intros [= <-]. Qed.

Lemma schema_of_applications schema :
  schema_of "applications" = Some schema → schema = application_schema.
Proof. by intros [= <-]. Qed.

(** X16: every handler keeps the stored documents in the shape of their
    models (a User has exactly name, email, role as text and
    research_interests as a list of text; likewise listings and
    applications), whatever the services answer and whether the handler
    returns or raises.  In particular a partial update can neither add a
    field, nor remove one, nor change the kind of one. *)
Theorem handlers_keep_documents_well_formed :
  (∀ user, preserves (signup user)) ∧
  (∀ listing, preserves (create_listing listing)) ∧
  preserves get_all_listings ∧
  (∀ listing_id, preserves (get_listing listing_id)) ∧
  (∀ listing_id listing, preserves (update_listing listing_id listing)) ∧
  (∀ listing_id user_id, preserves (delete_listing listing_id user_id)) ∧
  (∀ application, preserves (apply_to_listing application)) ∧
  (∀ listing_id, preserves (get_applications_for_listing listing_id)) ∧
  (∀ student_id, preserves (get_student_applications student_id)) ∧
  (∀ application_id, preserves (delete_application application_id)).
Proof.
  repeat split.
  - intros user. apply preserves_try.
    apply preserves_bind; [apply preserves_create_user|]. intros user_record.
    apply preserves_bind; [|intros _; apply preserves_ret].
    apply preserves_set. intros schema ->%schema_of_users.
    apply conforms_user_document.
  - intros listing. apply preserves_try.
    apply preserves_bind; [|intros id; apply preserves_ret].
    apply preserves_add. intros schema ->%schema_of_listings.
    apply conforms_listing_dict.
  - apply preserves_try.
    apply preserves_bind; [apply preserves_stream|]. intros l. apply preserves_ret.
  - intros listing_id.
    apply preserves_bind; [apply preserves_get|].
    intros [d|]; [apply preserves_ret|apply preserves_raise].
  - intros listing_id listing.
    apply preserves_bind; [apply preserves_get|].
    intros [d|]; [|apply preserves_raise].
    cbv zeta. case_decide; [apply preserves_raise|].
    apply preserves_bind; [|intros _; apply preserves_ret].
    apply preserves_update. intros schema old ->%schema_of_listings.
    apply conforms_update.
  - intros listing_id user_id. unfold delete_listing.
    destruct user_id as [caller|]; [|apply preserves_raise].
    destruct (header_missing (Some caller)); [apply preserves_raise|].
    apply preserves_bind; [apply preserves_get|].
    intros [user_data|]; [|apply preserves_raise].
    case_decide; [apply preserves_raise|].
    apply preserves_bind; [apply preserves_get|].
    intros [d|]; [|apply preserves_raise].
    apply preserves_bind; [apply preserves_delete|].
    intros _. apply preserves_ret.
  - intros application. apply preserves_try.
    apply preserves_bind; [|intros id; apply preserves_ret].
    apply preserves_add. intros schema ->%schema_of_applications.
    apply conforms_application_dict.
  - intros listing_id. apply preserves_try.
    apply preserves_bind; [apply preserves_stream|]. intros l. apply preserves_ret.
  - intros student_id. apply preserves_try.
    apply preserves_bind; [apply preserves_stream|]. intros l. apply preserves_ret.
  - intros application_id.
    apply preserves_bind; [apply preserves_get|].
    intros [d|]; [|apply preserves_raise].
    apply preserves_bind; [apply preserves_delete|].
    intros _. apply preserves_ret.
Qed.

Lemma blank_world_well_formed rs : well_formed (blank_world rs).
Proof. intros c schema k d _. unfold collection_docs. simpl. by rewrite !lookup_empty. Qed.

Lemma handlers_keep_documents_well_formed_witness :
  well_formed
    (update_listing "L1" retitle
       (create_listing demo_listing
          (signup demo_signup
             (blank_world [Served "u1"; Served ""; Served "L1"; Served ""; Served ""])).2).2).2.
Proof.
  destruct handlers_keep_documents_well_formed
    as (Hsignup & Hcreate & _ & _ & Hupdate & _).
  apply Hupdate, Hcreate, Hsignup, blank_world_well_formed.
Defined.

(** ** What the responses carry under ["id"] *)

Lemma get_ok_inv c k w o w' :
  firestore.get c k w = (Ok o, w') → o = collection_docs w c !! k.
Proof.
  unfold firestore.get, mbind, M_bind, call, get_world.
  destruct (script w) as [|[token|msg] rs]; simpl; [done| |done].
  by intros [= <- _].
Qed.

Lemma stream_ok_inv q w l w' :
  firestore.stream q w = (Ok l, w') →
  l = List.filter (λ kd : string * doc, firestore.matches q kd.2)
        (map_to_list (collection_docs w (firestore.q_collection q))).
Proof.
  unfold firestore.stream, mbind, M_bind, call, get_world.
  destruct (script w) as [|[token|msg] rs]; simpl; [done| |done].
  by intros [= <- _].
Qed.

Lemma listed_ok_inv q w response :
  (try_except
     (documents ← firestore.stream q;
      mret ((λ kd : string * doc, with_id kd.1 kd.2) <$> documents))
     as_bad_request w).1 = Ok response →
  ∀ e, e ∈ response →
    ∃ id d, collection_docs w (firestore.q_collection q) !! id = Some d ∧
            e = with_id id d.
Proof.
  unfold try_except, mbind, M_bind.
  destruct (firestore.stream q w) as [[l|e'] w'] eqn:Hstream; simpl; [|done].
  intros [= <-] e Hin. apply stream_ok_inv in Hstream as ->.
  apply list_elem_of_fmap in Hin as ([id d] & -> & Hin).
  exists id, d. split; [|done].
  apply list_elem_of_In, filter_In in Hin as [Hin _].
  by apply list_elem_of_In, elem_of_map_to_list in Hin.
Qed.

Lemma well_formed_no_id w c schema k d :
  well_formed w → schema_of c = Some schema → schema !! "id" = None →
  collection_docs w c !! k = Some d → d !! "id" = None.
Proof.
  intros Hw Hschema Hid Hd. specialize (Hw c schema k d Hschema Hd "id").
  by rewrite Hid in Hw.
Qed.

Lemma demo_world_well_formed rs : well_formed (demo_world rs).
Proof.
  intros c schema k d Hschema. unfold schema_of in Hschema.
  repeat case_decide; simplify_eq.
  - change (collection_docs (demo_world rs) "users")
      with ({[ "u1" := professor_doc; "s1" := student_doc ]} : gmap string doc).
    intros [[_ <-]|[_ [_ <-]%lookup_singleton_Some]]%lookup_insert_Some.
    + apply (conforms_user_document demo_signup).
    + apply (conforms_user_document student_signup).
  - change (collection_docs (demo_world rs) "research_listings")
      with ({[ "L1" := ResearchListing.dict demo_listing ]} : gmap string doc).
    intros [_ <-]%lookup_singleton_Some. apply conforms_listing_dict.
  - change (collection_docs (demo_world rs) "applications")
      with ({[ "a1" := ResearchApplication.dict (demo_application "s1" "L1");
               "a2" := ResearchApplication.dict (demo_application "s2" "L2");
               "a3" := ResearchApplication.dict (demo_application "s2" "L1") ]}
            : gmap string doc).
    intros [[_ <-]|[_ [[_ <-]|[_ [_ <-]%lookup_singleton_Some]]%lookup_insert_Some]]
             %lookup_insert_Some; apply conforms_application_dict.
Qed.

(** X17: in a store whose documents have the shape of their models (which
    the handlers keep), whatever a reading handler returns is a stored
    document with the key ["id"] added and bound to the identifier of that
    document: no stored field hides the identifier. *)
Theorem responses_carry_identifier (w : world) :
  well_formed w →
  (∀ listing_id r, (get_listing listing_id w).1 = Ok r →
     ∃ d, collection_docs w "research_listings" !! listing_id = Some d ∧
          r = <["id" := VStr listing_id]> d) ∧
  (∀ response e, (get_all_listings w).1 = Ok response → e ∈ response →
     ∃ id d, collection_docs w "research_listings" !! id = Some d ∧
             e = <["id" := VStr id]> d) ∧
  (∀ X response e, (get_applications_for_listing X w).1 = Ok response →
     e ∈ response →
     ∃ id d, collection_docs w "applications" !! id = Some d ∧
             e = <["id" := VStr id]> d) ∧
  (∀ S response e, (get_student_applications S w).1 = Ok response →
     e ∈ response →
     ∃ id d, collection_docs w "applications" !! id = Some d ∧
             e = <["id" := VStr id]> d).
Proof.
  intros Hw. split; [|split; [|split]].
  - intros listing_id r. unfold get_listing, mbind, M_bind.
    destruct (firestore.get "research_listings" listing_id w)
      as [[[d|]|e] w'] eqn:Hget; simpl; [|done..].
    intros [= <-]. apply get_ok_inv in Hget. exists d. split; [done|].
    apply with_id_fresh.
    by apply (well_formed_no_id w "research_listings" listing_schema listing_id).
  - intros response e Hrun Hin.
    destruct (listed_ok_inv _ _ _ Hrun e Hin) as (id & d & Hd & ->).
    exists id, d. split; [done|]. apply with_id_fresh.
    by apply (well_formed_no_id w "research_listings" listing_schema id).
  - intros X response e Hrun Hin.
    destruct (listed_ok_inv _ _ _ Hrun e Hin) as (id & d & Hd & ->).
    exists id, d. split; [done|]. apply with_id_fresh.
    by apply (well_formed_no_id w "applications" application_schema id).
  - intros S response e Hrun Hin.
    destruct (listed_ok_inv _ _ _ Hrun e Hin) as (id & d & Hd & ->).
    exists id, d. split; [done|]. apply with_id_fresh.
    by apply (well_formed_no_id w "applications" application_schema id).
Qed.

Lemma responses_carry_identifier_witness :
  ∃ r, (get_listing "L1" (demo_world [Served ""])).1 = Ok r ∧
       r = <["id" := VStr "L1"]> (ResearchListing.dict demo_listing).
Proof.
  destruct (responses_carry_identifier (demo_world [Served ""])
              (demo_world_well_formed _)) as [Hget _].
  destruct (Hget "L1" (with_id "L1" (ResearchListing.dict demo_listing)))
    as (d & Hd & Hr); [vm_compute; reflexivity|].
  exists (with_id "L1" (ResearchListing.dict demo_listing)).
  split; [vm_compute; reflexivity|].
  by apply with_id_fresh.
Defined.

(** ** Update, then get *)

(** X18: after a successful update, [get_listing] shows it: each field
    supplied with a value that is not null reads as supplied, every other
    stored field reads as before. *)
Theorem update_then_get
  (listing_id : string) (listing : ResearchListingUpdate.t) (w : world)
  (stored : doc) (t1 t2 t3 : string) (rs : list reply) :
  collection_docs w "research_listings" !! listing_id = Some stored →
  (∃ k, is_Some (non_null_field listing k)) →
  script w = Served t1 :: Served t2 :: Served t3 :: rs →
  ∃ r,
    (get_listing listing_id (update_listing listing_id listing w).2).1 = Ok r ∧
    (∀ k v, non_null_field listing k = Some v → r !! k = Some v) ∧
    (∀ k, k ≠ "id" → non_null_field listing k = None → r !! k = stored !! k).
Proof.
  intros Hstored [k0 [v0 Hk0]] Hs.
  assert (not_none_items (ResearchListingUpdate.dict_exclude_unset listing) ≠ ∅)
    as Hne.
  { intros Hempty.
    pose proof (proj1 (update_data_empty listing) Hempty k0) as Hnone.
    by rewrite Hnone in Hk0. }
  rewrite (update_listing_served _ _ _ _ _ _ _ Hstored Hne Hs). cbn [snd].
  erewrite get_listing_served; [|reflexivity].
  docs_simpl. rewrite lookup_insert_eq. cbn [fst].
  eexists. split; [reflexivity|]. split.
  - intros k v Hk. rewrite lookup_with_id.
    erewrite lookup_union_Some_l; [done|]. by rewrite update_data_lookup.
  - intros k Hid Hk. rewrite lookup_with_id.
    rewrite lookup_union_r by (by rewrite update_data_lookup).
    destruct (stored !! k); [done|]. by rewrite decide_False.
Qed.

Lemma update_then_get_witness :
  ∃ r,
    (get_listing "L1"
       (update_listing "L1" retitle
          (demo_world [Served ""; Served ""; Served ""])).2).1 = Ok r ∧
    r !! "title" = Some (VStr "Verified AI") ∧
    r !! "description" = Some (VStr "...").
Proof.
  destruct (update_then_get "L1" retitle
              (demo_world [Served ""; Served ""; Served ""])
              (ResearchListing.dict demo_listing) "" "" "" [])
    as (r & Hr & Hnew & Hold).
  - vm_compute. reflexivity.
  - exists "title". vm_compute. eauto.
  - reflexivity.
  - exists r. split; [exact Hr|]. split.
    + apply Hnew. vm_compute. reflexivity.
    + rewrite Hold; [vm_compute; reflexivity | done | vm_compute; reflexivity].
Defined.

(** ** Queries that match nothing *)

Lemma filter_nil_no_elem {A} (f : A → bool) (l : list A) :
  (∀ x, x ∈ l → f x = false) → List.filter f l = [].
Proof.
  induction l as [|x l IH]; simpl; [done|]. intros H.
  rewrite (H x) by apply list_elem_of_here.
  apply IH. intros y Hy. apply H. by apply list_elem_of_further.
Qed.

(** X19: a query that matches nothing is not an error.  When no
    application carries the asked [listing_id] (for instance because no
    such listing exists), [get_applications_for_listing] returns the empty
    list; likewise [get_student_applications] for a [student_id] that no
    application carries. *)
Theorem queries_matching_nothing
  (X : string) (w : world) (token : string) (rs : list reply) :
  script w = Served token :: rs →
  ((∀ id d, collection_docs w "applications" !! id = Some d →
      d !! "listing_id" ≠ Some (VStr X)) →
   get_applications_for_listing X w = (Ok [], with_script rs w)) ∧
  ((∀ id d, collection_docs w "applications" !! id = Some d →
      d !! "student_id" ≠ Some (VStr X)) →
   get_student_applications X w = (Ok [], with_script rs w)).
Proof.
  intros Hs. split; intros Hnone.
  - rewrite (get_applications_for_listing_served _ _ _ _ Hs).
    rewrite filter_nil_no_elem; [done|].
    intros [id d] Hin%elem_of_map_to_list. unfold firestore.matches; simpl.
    apply bool_decide_eq_false. by eapply Hnone.
  - rewrite (get_student_applications_served _ _ _ _ Hs).
    rewrite filter_nil_no_elem; [done|].
    intros [id d] Hin%elem_of_map_to_list. unfold firestore.matches; simpl.
    apply bool_decide_eq_false. by eapply Hnone.
Qed.

Lemma queries_matching_nothing_witness :
  get_applications_for_listing "L1" (quiet_world [Served ""]) =
    (Ok [], quiet_world []).
Proof.
  destruct (queries_matching_nothing "L1" (quiet_world [Served ""]) "" [] eq_refl)
    as [Hlisting _].
  apply Hlisting. intros id d.
  change (collection_docs (quiet_world [Served ""]) "applications")
    with (∅ : gmap string doc).
  by rewrite lookup_empty.
Defined.
